(** * fbpt: reading the ACPI Firmware Basic Performance Table

    A shallow embedding of [pkg/acpi/fbpt] (the signature check, the record
    scanner and the dynamic-string record decoder) and the properties of
    the scan.

    Conventions of the embedding:
    - a byte is a [Byte.byte]; a Go [string] is a [String.string] (both are
      byte sequences, [string(b)] is [string_of_list_byte b]);
    - [uint8], [uint16], [uint32], [uint64] values are [Z] with the
      wrap-around of every subtraction and addition written out;
    - a function that takes an [io.ReadSeeker] is a computation in a small
      state-and-error monad over any type that implements [ReadSeeker];
      [File] is the implementation by a finite memory image, [Stream] one
      that never runs out;
    - the [for] loop takes a number of iterations it may run ([fuel]) and
      gives [None] when that number is not enough; on a finite device the
      size of the device is enough;
    - a Go [nil] slice is the empty list. *)

From Stdlib Require Import ZArith Lia Strings.Byte Ascii String.
From stdpp Require Import base list gmap strings pretty.

Open Scope Z_scope.

(** ** Errors *)

Inductive error : Type :=
| EOF                          (* io.EOF *)
| ErrUnexpectedEOF             (* io.ErrUnexpectedEOF *)
| Errno (code : Z)             (* an error of the operating system: open, seek, read *)
| errors_New (msg : string).   (* errors.New(msg) *)

Definition EINVAL : Z := 22.

Inductive result (A : Type) : Type :=
| Ok (a : A)
| Err (e : error).
Arguments Ok {A} a.
Arguments Err {A} e.

Definition is_Err {A} (r : result A) : bool :=
  match r with Ok _ => false | Err _ => true end.

(** ** The state-and-error monad of the readers *)

Definition IO (S A : Type) : Type := S -> S * result A.

Definition ret {S A} (a : A) : IO S A := fun s => (s, Ok a).

Definition fail {S A} (e : error) : IO S A := fun s => (s, Err e).

Definition bind {S A B} (m : IO S A) (k : A -> IO S B) : IO S B :=
  fun s => match m s with
           | (s', Ok a) => k a s'
           | (s', Err e) => (s', Err e)
           end.

Notation "x <-- m ;; k" := (bind m (fun x => k))
  (at level 100, m at next level, right associativity).

(** ** Bytes and fixed-width integers *)

Definition byte_Z (b : byte) : Z := Z.of_N (Byte.to_N b).

Definition wrap (bits : Z) (z : Z) : Z := z mod 2 ^ bits.

(** [binary.LittleEndian.UintN]: the bytes are or-ed together, byte [i]
    shifted left by [8 * i]. *)
Fixpoint le_uint (b : list byte) : Z :=
  match b with
  | [] => 0
  | b0 :: rest => Z.lor (byte_Z b0) (Z.shiftl (le_uint rest) 8)
  end.

Definition LittleEndian_Uint16 (b : list byte) : Z := le_uint (take 2 b).
Definition LittleEndian_Uint32 (b : list byte) : Z := le_uint (take 4 b).
Definition LittleEndian_Uint64 (b : list byte) : Z := le_uint (take 8 b).

(** [int64(x)] for [x : uint64]. *)
Definition int64_of_uint64 (x : Z) : Z :=
  if x <? 2 ^ 63 then x else x - 2 ^ 64.

Definition maxInt64 : Z := 2 ^ 63 - 1.

(** ** io.ReadSeeker *)

Inductive Whence : Type := SeekStart | SeekCurrent.

(** [Seek s offset whence] is [s.Seek(offset, whence)]; [ReadFull s n] is
    [io.ReadFull(s, buf)] for a buffer of [n] bytes and gives the bytes that
    filled the buffer. *)
Class ReadSeeker (S : Type) : Type := {
  Seek : Z -> Whence -> IO S Z;
  ReadFull : nat -> IO S (list byte)
}.

(** *** os.File over a memory image

    The device is a finite sequence of bytes and the handle carries its
    cursor.  Seeking past the end is allowed, reading there gives [io.EOF];
    a read that gets some bytes but not all gives [io.ErrUnexpectedEOF]. *)
Record File : Type := mkFile {
  contents : list byte;
  offset : Z
}.

Definition File_Seek (off : Z) (whence : Whence) : IO File Z :=
  fun f =>
    let target := match whence with
                  | SeekStart => off
                  | SeekCurrent => offset f + off
                  end in
    if (target <? 0) || (maxInt64 <? target)
    then (f, Err (Errno EINVAL))
    else (mkFile (contents f) target, Ok target).

Definition File_ReadFull (n : nat) : IO File (list byte) :=
  fun f =>
    let size := Z.of_nat (length (contents f)) in
    if (n =? 0)%nat then (f, Ok [])
    else if size <=? offset f then (f, Err EOF)
    else if size <? offset f + Z.of_nat n
         then (mkFile (contents f) size, Err ErrUnexpectedEOF)
         else (mkFile (contents f) (offset f + Z.of_nat n),
               Ok (take n (drop (Z.to_nat (offset f)) (contents f)))).

#[export] Instance File_ReadSeeker : ReadSeeker File := {
  Seek := File_Seek;
  ReadFull := File_ReadFull
}.

(** ** Constants of the package *)

Definition FBPTStructureSig : string := "FBPT".

Definition EFI_ACPI_5_0_FPDT_PERFORMANCE_RECORD_HEADER_SIZE : Z := 4.
Definition EFI_ACPI_5_0_FBPT_HEADER_SIZE : Z := 8.

Definition maxNumberOfFBPTPerfRecords : nat := 2000.

Definition FPDT_DYNAMIC_STRING_EVENT_RECORD_IDENTIFIER : Z := 0x1011.

Definition MODULE_START_ID : Z := 0x01.
Definition MODULE_END_ID : Z := 0x02.
Definition MODULE_LOADIMAGE_START_ID : Z := 0x03.
Definition MODULE_LOADIMAGE_END_ID : Z := 0x04.
Definition MODULE_DB_START_ID : Z := 0x05.
Definition MODULE_DB_END_ID : Z := 0x06.
Definition MODULE_DB_SUPPORT_START_ID : Z := 0x07.
Definition MODULE_DB_SUPPORT_END_ID : Z := 0x08.
Definition MODULE_DB_STOP_START_ID : Z := 0x09.
Definition MODULE_DB_STOP_END_ID : Z := 0x0A.

Definition PERF_EVENTSIGNAL_START_ID : Z := 0x10.
Definition PERF_EVENTSIGNAL_END_ID : Z := 0x11.
Definition PERF_CALLBACK_START_ID : Z := 0x20.
Definition PERF_CALLBACK_END_ID : Z := 0x21.
Definition PERF_FUNCTION_START_ID : Z := 0x30.
Definition PERF_FUNCTION_END_ID : Z := 0x31.
Definition PERF_INMODULE_START_ID : Z := 0x40.
Definition PERF_INMODULE_END_ID : Z := 0x41.
Definition PERF_CROSSMODULE_START_ID : Z := 0x50.
Definition PERF_CROSSMODULE_END_ID : Z := 0x51.

(** The entries of the map literal, in the order of the source. *)
Definition eventTypeEntries : list (Z * string) :=
  [ (MODULE_START_ID, "MODULE_START_ID"%string);
    (MODULE_END_ID, "MODULE_END_ID"%string);
    (MODULE_LOADIMAGE_START_ID, "MODULE_LOADIMAGE_START_ID"%string);
    (MODULE_LOADIMAGE_END_ID, "MODULE_LOADIMAGE_END_ID"%string);
    (MODULE_DB_START_ID, "MODULE_DB_START_ID"%string);
    (MODULE_DB_END_ID, "MODULE_DB_END_ID"%string);
    (MODULE_DB_SUPPORT_START_ID, "MODULE_DB_SUPPORT_START_ID"%string);
    (MODULE_DB_SUPPORT_END_ID, "MODULE_DB_SUPPORT_END_ID"%string);
    (MODULE_DB_STOP_START_ID, "MODULE_DB_STOP_START_ID"%string);
    (MODULE_DB_STOP_END_ID, "MODULE_DB_STOP_END_ID"%string);
    (PERF_EVENTSIGNAL_START_ID, "PERF_EVENTSIGNAL_START_ID"%string);
    (PERF_EVENTSIGNAL_END_ID, "PERF_EVENTSIGNAL_END_ID"%string);
    (PERF_CALLBACK_START_ID, "PERF_CALLBACK_START_ID"%string);
    (PERF_CALLBACK_END_ID, "PERF_CALLBACK_END_ID"%string);
    (PERF_FUNCTION_START_ID, "PERF_FUNCTION_START_ID"%string);
    (PERF_FUNCTION_END_ID, "PERF_FUNCTION_END_ID"%string);
    (PERF_INMODULE_START_ID, "PERF_INMODULE_START_ID"%string);
    (PERF_INMODULE_END_ID, "PERF_INMODULE_END_ID"%string);
    (PERF_CROSSMODULE_START_ID, "PERF_CROSSMODULE_START_ID"%string);
    (PERF_CROSSMODULE_END_ID, "PERF_CROSSMODULE_END_ID"%string) ].

Definition eventTypeMap : gmap Z string := list_to_map eventTypeEntries.

(** [m[k]] on a Go map: the zero value of the element type, here the empty
    string, when the key is absent. *)
Definition map_index (m : gmap Z string) (k : Z) : string :=
  default ""%string (m !! k).

(** ** Records *)

Record MEASUREMENT_RECORD : Type := mkRecord {
  HookType : string;
  ProcessorIdentifier : Z;
  Timestamp : Z;
  GUID : list byte;
  Description : string
}.

(** The zero value of the struct ([GUID] is a [[16]byte] array). *)
Definition zero_MEASUREMENT_RECORD : MEASUREMENT_RECORD :=
  mkRecord ""%string 0 0 (replicate 16 x00) ""%string.

(** Lower-case hexadecimal text of bytes. *)
Definition hex_digit (n : Z) : ascii :=
  nth (Z.to_nat n) (list_ascii_of_string "0123456789abcdef") "0"%char.

Definition hex_of_byte (b : byte) : string :=
  String (hex_digit (byte_Z b / 16)) (String (hex_digit (byte_Z b mod 16)) EmptyString).

Definition hex_of_bytes (bs : list byte) : string :=
  foldr (fun b s => String.append (hex_of_byte b) s) EmptyString bs.

(** Modelled from the spec: [uefivars.MixedGUID.String] (package
    [pkg/uefivars], not among the sources), the canonical mixed-endian text
    of a 16-byte GUID: the three leading fields (4, 2 and 2 bytes) are
    byte-swapped, the trailing 8 bytes are kept in stored order, and the
    groups are written in hexadecimal separated by dashes. *)
Definition MixedGUID_String (g : list byte) : string :=
  String.concat "-"%string
    [ hex_of_bytes (reverse (take 4 g));
      hex_of_bytes (reverse (take 2 (drop 4 g)));
      hex_of_bytes (reverse (take 2 (drop 6 g)));
      hex_of_bytes (take 2 (drop 8 g));
      hex_of_bytes (take 6 (drop 10 g)) ].

(** ** The readers, over any [io.ReadSeeker] *)

Section Readers.
Context {S : Type} `{ReadSeeker S}.

(** Modelled from the spec: [fpdt.ReadFPDTRecordHeader] (package
    [pkg/acpi/fpdt], not among the sources) reads 2 bytes (type,
    little-endian), 1 byte (length) and 1 byte (revision) from the current
    cursor position and returns the triple; it does not look at the type
    code. *)
Definition ReadFPDTRecordHeader : IO S (Z * Z * Z) :=
  recordType <-- ReadFull 2 ;;
  recordLength <-- ReadFull 1 ;;
  recordRevision <-- ReadFull 1 ;;
  ret (LittleEndian_Uint16 recordType,
       le_uint (take 1 recordLength),
       le_uint (take 1 recordRevision)).

Definition verifyFBPTSignature (fbptAddr : Z) : IO S Z :=
  _ <-- Seek (int64_of_uint64 fbptAddr) SeekStart ;;
  fbptSig <-- ReadFull 4 ;;
  if negb (String.eqb (string_of_list_byte fbptSig) FBPTStructureSig)
  then fail (errors_New
               (String.append
                  "FBPT structure signature check failed. Expected: FBPT, Got: "
                  (string_of_list_byte fbptSig)))
  else
    fbptLength <-- ReadFull 4 ;;
    ret (LittleEndian_Uint32 fbptLength).

(** On a failed read the Go function returns the still zero-valued
    [measurementRecord] next to the error; here the error alone is
    returned and the caller stores [zero_MEASUREMENT_RECORD]. *)
Definition readFirmwarePerformanceDataTableDynamicRecord (recordLength : Z)
  : IO S MEASUREMENT_RECORD :=
  hookType <-- ReadFull 2 ;;
  processorIdentifier <-- ReadFull 4 ;;
  timestamp <-- ReadFull 8 ;;
  guid <-- ReadFull 16 ;;
  description <-- ReadFull (Z.to_nat (wrap 8 (recordLength - 34))) ;;
  ret {| HookType := map_index eventTypeMap (LittleEndian_Uint16 hookType);
         ProcessorIdentifier := LittleEndian_Uint32 processorIdentifier;
         Timestamp := LittleEndian_Uint64 timestamp;
         GUID := guid;
         Description := string_of_list_byte description |}.

(** The local variables of [FindAllFBPTRecords] that live across the
    iterations of its loop. *)
Record LoopState : Type := mkLoop {
  ls_f : S;
  ls_measurementRecords : list MEASUREMENT_RECORD;
  ls_index : nat;
  ls_tableBytesRead : Z
}.

(** One iteration either falls through to the loop test again or executes
    one of the three [return index, nil, err]. *)
Inductive Step : Type :=
| Continue (st : LoopState)
| Return (st : LoopState) (err : error).

Definition loop_cond (tablelength : Z) (st : LoopState) : bool :=
  (ls_tableBytesRead st <? wrap 32 (tablelength - EFI_ACPI_5_0_FBPT_HEADER_SIZE))
  && (ls_index st <? maxNumberOfFBPTPerfRecords)%nat.

Definition loop_body (st : LoopState) : Step :=
  match ReadFPDTRecordHeader (ls_f st) with
  | (f1, Err err) =>
      Return (mkLoop f1 (ls_measurementRecords st) (ls_index st) (ls_tableBytesRead st)) err
  | (f1, Ok (Type_, Length, _)) =>
      if Type_ =? FPDT_DYNAMIC_STRING_EVENT_RECORD_IDENTIFIER then
        match readFirmwarePerformanceDataTableDynamicRecord Length f1 with
        | (f2, Err err) =>
            Return (mkLoop f2
                      (<[ls_index st := zero_MEASUREMENT_RECORD]> (ls_measurementRecords st))
                      (ls_index st) (ls_tableBytesRead st)) err
        | (f2, Ok measurementRecord) =>
            Continue (mkLoop f2
                        (<[ls_index st := measurementRecord]> (ls_measurementRecords st))
                        (Datatypes.S (ls_index st))
                        (wrap 32 (ls_tableBytesRead st + Length)))
        end
      else
        match Seek (wrap 8 (Length - EFI_ACPI_5_0_FPDT_PERFORMANCE_RECORD_HEADER_SIZE))
                   SeekCurrent f1 with
        | (f2, Err err) =>
            Return (mkLoop f2 (ls_measurementRecords st) (ls_index st) (ls_tableBytesRead st)) err
        | (f2, Ok _) =>
            Continue (mkLoop f2 (ls_measurementRecords st) (ls_index st)
                        (wrap 32 (ls_tableBytesRead st + Length)))
        end
  end.

(** How the loop ends: its test fails ([Finished]) or an iteration
    returns an error ([Aborted]). *)
Inductive Outcome : Type :=
| Finished (st : LoopState)
| Aborted (st : LoopState) (err : error).

(** The [for] loop; [None] when [fuel] iterations were not enough. *)
Fixpoint scan_loop (fuel : nat) (tablelength : Z) (st : LoopState) : option Outcome :=
  if loop_cond tablelength st then
    match fuel with
    | O => None
    | Datatypes.S fuel' =>
        match loop_body st with
        | Continue st' => scan_loop fuel' tablelength st'
        | Return st' err => Some (Aborted st' err)
        end
    end
  else Some (Finished st).

Definition outcome_state (out : Outcome) : LoopState :=
  match out with Finished st => st | Aborted st _ => st end.

Definition initial_state (f : S) : LoopState :=
  mkLoop f (replicate maxNumberOfFBPTPerfRecords zero_MEASUREMENT_RECORD) 0%nat 0.

(** [opened] is what [os.OpenFile(memDevice, os.O_RDONLY, 0)] gave.  The
    result is the triple the function returns; the error is [None] for
    [nil]. *)
Definition FindAllFBPTRecords (fuel : nat) (opened : result S) (FBPTAddr : Z)
  : option (nat * list MEASUREMENT_RECORD * option error) :=
  match opened with
  | Err err => Some (0%nat, [], Some err)
  | Ok f =>
      match verifyFBPTSignature FBPTAddr f with
      | (_, Err err) => Some (0%nat, [], Some err)
      | (f', Ok tablelength) =>
          match scan_loop fuel tablelength (initial_state f') with
          | None => None
          | Some (Finished st) => Some (ls_index st, ls_measurementRecords st, None)
          | Some (Aborted st err) => Some (ls_index st, [], Some err)
          end
      end
  end.

(** *** Observers of the loop, for the statements *)

(** The record that the iteration started in [st] decodes, if it
    decodes one. *)
Definition decoded_by (st : LoopState) : option MEASUREMENT_RECORD :=
  match ReadFPDTRecordHeader (ls_f st) with
  | (f1, Ok (Type_, Length, _)) =>
      if Type_ =? FPDT_DYNAMIC_STRING_EVENT_RECORD_IDENTIFIER then
        match readFirmwarePerformanceDataTableDynamicRecord Length f1 with
        | (_, Ok measurementRecord) => Some measurementRecord
        | (_, Err _) => None
        end
      else None
  | (_, Err _) => None
  end.

(** The records decoded by the iterations of the loop, in the order of
    the iterations. *)
Fixpoint decoded_records (fuel : nat) (tablelength : Z) (st : LoopState)
  : list MEASUREMENT_RECORD :=
  if loop_cond tablelength st then
    match fuel with
    | O => []
    | Datatypes.S fuel' =>
        match loop_body st with
        | Continue st' =>
            match decoded_by st with
            | Some r => r :: decoded_records fuel' tablelength st'
            | None => decoded_records fuel' tablelength st'
            end
        | Return _ _ => []
        end
    end
  else [].

(** The entries of the slice from [idx] on are still zero-valued. *)
Definition zero_from (idx : nat) (recs : list MEASUREMENT_RECORD) : Prop :=
  forall i, (idx <= i < length recs)%nat -> recs !! i = Some zero_MEASUREMENT_RECORD.

End Readers.

(** ** The binary layout, written out

    The encoder of the layout the readers parse; it is the specification
    side of the round-trip and of the synthetic tables. *)

Definition byte_of_Z (z : Z) : byte :=
  default x00 (Byte.of_N (Z.to_N (z mod 256))).

(** [n] bytes of [v], least significant first. *)
Fixpoint le_bytes (n : nat) (v : Z) : list byte :=
  match n with
  | O => []
  | Datatypes.S n' => byte_of_Z v :: le_bytes n' (v / 256)
  end.

(** The body of a dynamic-string record: hook-type code, processor
    identifier, timestamp, guid, description. *)
Definition encode_dynamic_body (code : Z) (r : MEASUREMENT_RECORD) : list byte :=
  le_bytes 2 code ++ le_bytes 4 (ProcessorIdentifier r) ++ le_bytes 8 (Timestamp r)
    ++ GUID r ++ list_byte_of_string (Description r).

(** The fields fit their types, the description fits the one-byte length
    of the record header, and the label is the one of the code. *)
Definition encodable (code : Z) (r : MEASUREMENT_RECORD) : Prop :=
  0 <= code < 2 ^ 16
  /\ HookType r = map_index eventTypeMap code
  /\ 0 <= ProcessorIdentifier r < 2 ^ 32
  /\ 0 <= Timestamp r < 2 ^ 64
  /\ length (GUID r) = 16%nat
  /\ (length (list_byte_of_string (Description r)) <= 221)%nat.

(** A record of a synthetic table. *)
Inductive TableRecord : Type :=
| DynamicString (revision : Z) (code : Z) (r : MEASUREMENT_RECORD)
| OtherRecord (type revision : Z) (payload : list byte).

Definition is_dynamic (t : TableRecord) : bool :=
  match t with DynamicString _ _ _ => true | OtherRecord _ _ _ => false end.

Definition record_type (t : TableRecord) : Z :=
  match t with
  | DynamicString _ _ _ => FPDT_DYNAMIC_STRING_EVENT_RECORD_IDENTIFIER
  | OtherRecord type _ _ => type
  end.

Definition record_revision (t : TableRecord) : Z :=
  match t with
  | DynamicString revision _ _ => revision
  | OtherRecord _ revision _ => revision
  end.

Definition record_body (t : TableRecord) : list byte :=
  match t with
  | DynamicString _ code r => encode_dynamic_body code r
  | OtherRecord _ _ payload => payload
  end.

(** The declared length: header and body. *)
Definition declared_length (t : TableRecord) : Z :=
  EFI_ACPI_5_0_FPDT_PERFORMANCE_RECORD_HEADER_SIZE + Z.of_nat (length (record_body t)).

Definition encode_record (t : TableRecord) : list byte :=
  le_bytes 2 (record_type t) ++ [byte_of_Z (declared_length t); byte_of_Z (record_revision t)]
    ++ record_body t.

Definition well_formed_record (t : TableRecord) : Prop :=
  match t with
  | DynamicString revision code r => encodable code r
  | OtherRecord type revision payload =>
      0 <= type < 2 ^ 16
      /\ type <> FPDT_DYNAMIC_STRING_EVENT_RECORD_IDENTIFIER
      /\ (length payload <= 251)%nat
  end.

Definition encode_records (ts : list TableRecord) : list byte :=
  concat (map encode_record ts).

Definition total_length (ts : list TableRecord) : Z :=
  foldr (fun t acc => declared_length t + acc) 0 ts.

(** The table: signature, length of the whole table, records. *)
Definition encode_table (ts : list TableRecord) : list byte :=
  list_byte_of_string FBPTStructureSig
    ++ le_bytes 4 (EFI_ACPI_5_0_FBPT_HEADER_SIZE + total_length ts)
    ++ encode_records ts.

(** The measurement records of a table, in table order. *)
Definition measurements (ts : list TableRecord) : list MEASUREMENT_RECORD :=
  omap (fun t => match t with
                 | DynamicString _ _ r => Some r
                 | OtherRecord _ _ _ => None
                 end) ts.

#[export] Instance encodable_dec (code : Z) (r : MEASUREMENT_RECORD) :
  Decision (encodable code r).
Proof. unfold encodable. apply _. Defined.

#[export] Instance well_formed_record_dec (t : TableRecord) :
  Decision (well_formed_record t).
Proof. destruct t; cbn [well_formed_record]; apply _. Defined.

(** ** The device seen from the cursor *)

Definition file_size (f : File) : Z := Z.of_nat (length (contents f)).

(** The bytes from the cursor to the end of the device. *)
Definition unread (f : File) : list byte := drop (Z.to_nat (offset f)) (contents f).

Definition advance (f : File) (n : Z) : File := mkFile (contents f) (offset f + n).

(** A computation that never moves the cursor backwards and leaves the
    bytes of the device alone. *)
Definition forward {A} (m : IO File A) : Prop :=
  forall f f' r, m f = (f', r) -> contents f' = contents f /\ offset f <= offset f'.

(** A computation whose only errors are the two of a short read. *)
Definition short_read_errors {A} (m : IO File A) : Prop :=
  forall f f' e, m f = (f', Err e) -> e = EOF \/ e = ErrUnexpectedEOF.

(** ** The scan told on the records of a table

    [run_table] is the loop of [FindAllFBPTRecords] on the list of records
    instead of on their bytes. *)

Definition store_record (t : TableRecord) (idx : nat) (recs : list MEASUREMENT_RECORD)
  : list MEASUREMENT_RECORD :=
  match t with
  | DynamicString _ _ r => <[idx := r]> recs
  | OtherRecord _ _ _ => recs
  end.

Definition next_index (t : TableRecord) (idx : nat) : nat :=
  if is_dynamic t then Datatypes.S idx else idx.

Fixpoint run_table (ts : list TableRecord) (st : @LoopState File) : @LoopState File :=
  match ts with
  | [] => st
  | t :: ts' =>
      if (ls_index st <? maxNumberOfFBPTPerfRecords)%nat
      then run_table ts'
             (mkLoop (advance (ls_f st) (declared_length t))
                (store_record t (ls_index st) (ls_measurementRecords st))
                (next_index t (ls_index st))
                (ls_tableBytesRead st + declared_length t))
      else st
  end.

(** Every record of the table is met while fewer than 2000 records are
    stored, so that the cap of the loop never cuts the table short. *)
Fixpoint all_reached (ts : list TableRecord) (idx : nat) : bool :=
  match ts with
  | [] => true
  | t :: ts' => (idx <? maxNumberOfFBPTPerfRecords)%nat && all_reached ts' (next_index t idx)
  end.

(** ** Sample devices *)

Definition sample_guid : list byte :=
  [x00; x01; x02; x03; x04; x05; x06; x07; x08; x09; x0a; x0b; x0c; x0d; x0e; x0f].

Definition sample_record : MEASUREMENT_RECORD :=
  mkRecord "MODULE_START_ID" 7 123456789 sample_guid "hello".

Definition unknown_hook_record : MEASUREMENT_RECORD :=
  mkRecord "" 1 2 sample_guid "".

(** Two dynamic-string records around a record of another type; the second
    dynamic-string record carries the unmapped hook-type code 0xFF. *)
Definition small_table : list TableRecord :=
  [ DynamicString 1 MODULE_START_ID sample_record;
    OtherRecord 0x1000 1 [x4d; x00; x00; x00; x00];
    DynamicString 1 0xFF unknown_hook_record ].

(** 2001 dynamic-string records. *)
Definition table_2001 : list TableRecord :=
  replicate 2001 (DynamicString 1 MODULE_START_ID sample_record).

(** A table of two dynamic-string records of 39 bytes each, cut 20 bytes
    into the second record. *)
Definition truncated_device : list byte :=
  take 67 (encode_table [ DynamicString 1 MODULE_START_ID sample_record;
                          DynamicString 1 MODULE_END_ID sample_record ]).

(** A table of 11 bytes whose only record has type 0x1000 and declares the
    length 3. *)
Definition short_record_device : list byte :=
  list_byte_of_string FBPTStructureSig ++ le_bytes 4 11 ++ [x00; x10; x03; x01].

(** A table of 12 bytes whose only record is a dynamic-string record that
    declares the length 4, followed by 256 more bytes of the device. *)
Definition short_dynamic_device : list byte :=
  list_byte_of_string FBPTStructureSig ++ le_bytes 4 12 ++ [x11; x10; x04; x01]
    ++ replicate 256 x41.

(** A table header that declares the length 0, followed by one
    dynamic-string record. *)
Definition short_table_device : list byte :=
  list_byte_of_string FBPTStructureSig ++ le_bytes 4 0
    ++ encode_record (DynamicString 1 MODULE_START_ID sample_record).

(** A table header that declares 100 bytes, followed by 600 zero bytes:
    every record header read there has type 0 and declares the length 0. *)
Definition zero_length_device : list byte :=
  list_byte_of_string FBPTStructureSig ++ le_bytes 4 100 ++ replicate 600 x00.

(** A device that starts with "XXXX". *)
Definition bad_signature_device : list byte := list_byte_of_string "XXXX1234".

(** *** A byte source that never runs out

    A stream that holds the table header, "FBPT" and the declared length
    100, in its first 8 bytes and the byte 0 at every position after them.
    Every read fills its buffer and every seek to a position that is not
    negative succeeds. *)
Record Stream : Type := mkStream { position : Z }.

Definition stream_byte (pos : Z) : byte :=
  nth (Z.to_nat pos) (list_byte_of_string FBPTStructureSig ++ le_bytes 4 100) x00.

Definition Stream_Seek (off : Z) (whence : Whence) : IO Stream Z :=
  fun s =>
    let target := match whence with
                  | SeekStart => off
                  | SeekCurrent => position s + off
                  end in
    if target <? 0
    then (s, Err (Errno EINVAL))
    else (mkStream target, Ok target).

Definition Stream_ReadFull (n : nat) : IO Stream (list byte) :=
  fun s =>
    (mkStream (position s + Z.of_nat n),
     Ok (map (fun i => stream_byte (position s + Z.of_nat i)) (seq 0 n))).

#[export] Instance Stream_ReadSeeker : ReadSeeker Stream := {
  Seek := Stream_Seek;
  ReadFull := Stream_ReadFull
}.

(** ** Statements of the specification that the code does not meet *)

(** On an error the returned slice begins with the records decoded so far. *)
Definition keeps_partial_results (decoded : list MEASUREMENT_RECORD)
    (res : option (nat * list MEASUREMENT_RECORD * option error)) : Prop :=
  match res with
  | Some (_, recs, Some _) => take (length decoded) recs = decoded
  | _ => True
  end.

(** The scan of the table [ts], alone on the device, finds all its
    measurement records, in table order, and consumes the whole body. *)
Definition scans_whole_table (ts : list TableRecord) : Prop :=
  exists fuel f1 tablelength st,
    verifyFBPTSignature 0 (mkFile (encode_table ts) 0) = (f1, Ok tablelength)
    /\ scan_loop fuel tablelength (initial_state f1) = Some (Finished st)
    /\ ls_index st = length (measurements ts)
    /\ take (ls_index st) (ls_measurementRecords st) = measurements ts
    /\ ls_tableBytesRead st = tablelength - EFI_ACPI_5_0_FBPT_HEADER_SIZE.

(** The scan of the device [c] from address 0 stops with an error. *)
Definition scan_stops_with_error (c : list byte) : Prop :=
  forall fuel count recs err,
    FindAllFBPTRecords fuel (Ok (mkFile c 0)) 0 = Some (count, recs, err) -> err <> None.

(** Some number of iterations is enough for the scan of [f] to return. *)
Definition scan_returns {S : Type} `{ReadSeeker S} (f : S) (FBPTAddr : Z) : Prop :=
  exists fuel count recs err,
    FindAllFBPTRecords fuel (Ok f) FBPTAddr = Some (count, recs, err).

(** ** The command fbptcat

    [main] of [cmds/contrib/fbptcat].  What the program writes is a list of
    outputs, in the order of the writes. *)

Inductive Output : Type :=
| Println (err : error)      (* fmt.Println(err) *)
| Printf (line : string)     (* fmt.Printf of one record *)
| log_Fatal (err : error).   (* log.Fatal(err): the program ends *)

Definition newline : string := String "010"%char EmptyString.

(** The test of the [continue] in the loop of [main]. *)
Definition is_blank (measurementRecord : MEASUREMENT_RECORD) : bool :=
  (Timestamp measurementRecord =? 0)
  && (String.length (HookType measurementRecord) =? 0)%nat
  && (String.length (Description measurementRecord) =? 0)%nat.

(** The text of the [fmt.Printf] in the loop of [main]; [%d] writes a
    number in decimal. *)
Definition record_line (i : nat) (measurementRecord : MEASUREMENT_RECORD) : string :=
  String.concat ""%string
    [ "Index: "%string; pretty i;
      ",Hook Type: "%string; HookType measurementRecord;
      ", Processor Identifier/APIC ID: "%string; pretty (ProcessorIdentifier measurementRecord);
      ", Timestamp: "%string; pretty (Timestamp measurementRecord);
      ", Guid: "%string; MixedGUID_String (GUID measurementRecord);
      ", Description: "%string; Description measurementRecord;
      newline ].

(** The [for i, measurementRecord := range measurementRecords] loop, from
    the index [i] on. *)
Fixpoint print_records (i : nat) (measurementRecords : list MEASUREMENT_RECORD)
  : list Output :=
  match measurementRecords with
  | [] => []
  | measurementRecord :: rest =>
      if is_blank measurementRecord
      then print_records (Datatypes.S i) rest
      else Printf (record_line i measurementRecord) :: print_records (Datatypes.S i) rest
  end.

Section Main.
Context {S : Type} `{ReadSeeker S}.

(** The two functions of [pkg/acpi/fpdt] that [main] calls are not among
    the sources; [main] is given what they return: [ReadACPIFPDTTable] is
    the pair that [fpdt.ReadACPIFPDTTable()] returns, [FindFBPTTableAdrr] is
    [fpdt.FindFBPTTableAdrr]. *)
Context {Table : Type}.
Variable ReadACPIFPDTTable : Table * option error.
Variable FindFBPTTableAdrr : Table -> result Z.

Definition main (fuel : nat) (opened : result S) : option (list Output) :=
  let '(acpiFPDT, err) := ReadACPIFPDTTable in
  let printed := match err with Some e => [Println e] | None => [] end in
  match FindFBPTTableAdrr acpiFPDT with
  | Err e => Some (printed ++ [log_Fatal e])
  | Ok FBPTAddr =>
      match FindAllFBPTRecords fuel opened FBPTAddr with
      | None => None
      | Some (_, _, Some e) => Some (printed ++ [log_Fatal e])
      | Some (_, measurementRecords, None) =>
          Some (printed ++ print_records 0 measurementRecords)
      end
  end.

End Main.

(** An error that a read or a seek of the byte source returned. *)
Definition source_error {S : Type} `{ReadSeeker S} (e : error) : Prop :=
  (exists (s s' : S) (n : nat), ReadFull n s = (s', Err e))
  \/ (exists (s s' : S) (off : Z) (whence : Whence), Seek off whence s = (s', Err e)).

(** A computation whose errors all satisfy [P]. *)
Definition fails_with {S A : Type} (P : error -> Prop) (m : IO S A) : Prop :=
  forall s s' e, m s = (s', Err e) -> P e.

(** A byte source is finite when a measure of what is left of it drops by
    [n] at least on every read that fills a buffer of [n] bytes, and does
    not grow on a seek forward from the cursor. *)
Definition finite_source {S : Type} `{ReadSeeker S} (remaining : S -> nat) : Prop :=
  (forall (n : nat) (s s' : S) (b : list byte),
      ReadFull n s = (s', Ok b) -> (remaining s' + n <= remaining s)%nat)
  /\ (forall (off : Z) (s s' : S) (x : Z),
        0 <= off -> Seek off SeekCurrent s = (s', Ok x) -> (remaining s' <= remaining s)%nat).

(** Two devices related by a shift: [f] holds [pre] before the bytes of
    [f'] and its cursor stands [length pre] further. *)
Definition shifted (pre : list byte) (f f' : File) : Prop :=
  contents f = pre ++ contents f'
  /\ offset f = Z.of_nat (length pre) + offset f'
  /\ 0 <= offset f'.

(** A computation that cannot tell two shifted devices apart: it gives
    the same result on both and leaves them shifted. *)
Definition shift_invariant {A} (pre : list byte) (m : IO File A) : Prop :=
  forall f f', shifted pre f f' ->
    (m f).2 = (m f').2 /\ shifted pre (m f).1 (m f').1.

(** The same, for the state of the loop. *)
Definition shifted_state (pre : list byte) (st st' : @LoopState File) : Prop :=
  shifted pre (ls_f st) (ls_f st')
  /\ ls_measurementRecords st = ls_measurementRecords st'
  /\ ls_index st = ls_index st'
  /\ ls_tableBytesRead st = ls_tableBytesRead st'.

(** * Facts *)

(** ** Bytes and little-endian integers *)

Lemma byte_Z_range (b : byte) : 0 <= byte_Z b < 256.
Proof. unfold byte_Z. pose proof (Byte.to_N_bounded b). lia. Qed.

Lemma byte_Z_of_Z (z : Z) : byte_Z (byte_of_Z z) = z mod 256.
Proof.
  unfold byte_Z, byte_of_Z.
  assert (Hr : 0 <= z mod 256 < 256) by (apply Z.mod_pos_bound; lia).
  destruct (Byte.of_N (Z.to_N (z mod 256))) as [b|] eqn:E.
  - apply Byte.to_of_N in E. simpl. rewrite E. lia.
  - apply Byte.of_N_None_iff in E. lia.
Qed.

Lemma byte_of_Z_byte_Z (b : byte) : byte_of_Z (byte_Z b) = b.
Proof.
  unfold byte_of_Z, byte_Z.
  pose proof (Byte.to_N_bounded b).
  rewrite Z.mod_small by lia.
  rewrite N2Z.id, Byte.of_to_N. reflexivity.
Qed.

(** A byte and a value shifted left by 8 have no bit in common. *)
Lemma land_byte_shifted (a b : Z) : 0 <= a < 256 -> Z.land a (b * 2 ^ 8) = 0.
Proof.
  intros Ha. apply Z.bits_inj'. intros n Hn. rewrite Z.land_spec, Z.bits_0.
  destruct (Z.lt_ge_cases n 8).
  - rewrite Z.mul_pow2_bits_low by lia. apply andb_false_r.
  - replace (Z.testbit a n) with false; [reflexivity|].
    symmetry. apply Z.bits_above_log2; [lia|].
    destruct (Z.eq_dec a 0) as [->|]; [simpl; lia|].
    apply Z.log2_lt_pow2; [lia|].
    apply Z.lt_le_trans with (2 ^ 8); [change (2 ^ 8) with 256; lia|].
    apply Z.pow_le_mono_r; lia.
Qed.

Lemma lor_shiftl_8 (a b : Z) :
  0 <= a < 256 -> 0 <= b -> Z.lor a (Z.shiftl b 8) = a + 256 * b.
Proof.
  intros Ha Hb.
  rewrite Z.shiftl_mul_pow2 by lia.
  rewrite <- Z.lxor_lor by (by apply land_byte_shifted).
  rewrite <- Z.add_nocarry_lxor by (by apply land_byte_shifted).
  change (2 ^ 8) with 256. lia.
Qed.

Lemma le_uint_cons (b0 : byte) (rest : list byte) :
  0 <= le_uint rest -> le_uint (b0 :: rest) = byte_Z b0 + 256 * le_uint rest.
Proof. intros Hr. simpl. apply lor_shiftl_8; [apply byte_Z_range | exact Hr]. Qed.

Lemma le_uint_nonneg (b : list byte) : 0 <= le_uint b.
Proof.
  induction b as [|b0 rest IH]; [simpl; lia|].
  rewrite le_uint_cons by exact IH. pose proof (byte_Z_range b0). lia.
Qed.

Lemma le_uint_bound (b : list byte) : 0 <= le_uint b < 2 ^ (8 * Z.of_nat (length b)).
Proof.
  induction b as [|b0 rest IH]; [simpl; lia|].
  rewrite le_uint_cons by apply le_uint_nonneg.
  pose proof (byte_Z_range b0).
  replace (8 * Z.of_nat (length (b0 :: rest))) with (8 + 8 * Z.of_nat (length rest))
    by (simpl length; lia).
  rewrite Z.pow_add_r by lia. change (2 ^ 8) with 256. lia.
Qed.

Lemma le_uint_single (b : byte) : le_uint [b] = byte_Z b.
Proof. simpl. rewrite Z.shiftl_0_l. apply Z.lor_0_r. Qed.

Lemma length_le_bytes (n : nat) (v : Z) : length (le_bytes n v) = n.
Proof. revert v. induction n as [|n IH]; intros v; simpl; [reflexivity | by rewrite IH]. Qed.

Lemma le_uint_le_bytes_mod (n : nat) (v : Z) :
  le_uint (le_bytes n v) = v mod 2 ^ (8 * Z.of_nat n).
Proof.
  revert v. induction n as [|n IH]; intros v.
  - simpl. rewrite Z.mod_1_r. reflexivity.
  - cbn [le_bytes]. rewrite le_uint_cons by apply le_uint_nonneg.
    rewrite IH, byte_Z_of_Z.
    replace (8 * Z.of_nat (Datatypes.S n)) with (8 + 8 * Z.of_nat n) by lia.
    rewrite Z.pow_add_r by lia. change (2 ^ 8) with 256.
    rewrite Z.rem_mul_r; [reflexivity | lia | ].
    apply Z.pow_pos_nonneg; lia.
Qed.

(** Writing a value that fits and reading it back. *)
Lemma le_uint_le_bytes (n : nat) (v : Z) :
  0 <= v < 2 ^ (8 * Z.of_nat n) -> le_uint (le_bytes n v) = v.
Proof. intros Hv. rewrite le_uint_le_bytes_mod. apply Z.mod_small, Hv. Qed.

(** Reading bytes and writing the value back. *)
Lemma le_bytes_le_uint (b : list byte) : le_bytes (length b) (le_uint b) = b.
Proof.
  induction b as [|b0 rest IH]; [reflexivity|].
  rewrite le_uint_cons by apply le_uint_nonneg.
  pose proof (byte_Z_range b0). cbn [length le_bytes]. f_equal.
  - rewrite <- (byte_of_Z_byte_Z b0) at 2. unfold byte_of_Z.
    rewrite (Z.mul_comm 256), Z.mod_add by lia. reflexivity.
  - rewrite (Z.mul_comm 256), Z.div_add by lia.
    rewrite Z.div_small by lia. exact IH.
Qed.

(** The four bytes of a [uint32], weighted. *)
Lemma LittleEndian_Uint32_bytes (b0 b1 b2 b3 : byte) :
  LittleEndian_Uint32 [b0; b1; b2; b3]
  = byte_Z b0 + 2 ^ 8 * byte_Z b1 + 2 ^ 16 * byte_Z b2 + 2 ^ 24 * byte_Z b3.
Proof.
  unfold LittleEndian_Uint32. cbn [take].
  rewrite !le_uint_cons by apply le_uint_nonneg. cbn [le_uint]. lia.
Qed.

Lemma wrap_small (bits z : Z) : 0 <= z < 2 ^ bits -> wrap bits z = z.
Proof. intros Hz. unfold wrap. by apply Z.mod_small. Qed.

Lemma wrap_range (bits z : Z) : 0 <= bits -> 0 <= wrap bits z < 2 ^ bits.
Proof. intros Hb. unfold wrap. apply Z.mod_pos_bound. by apply Z.pow_pos_nonneg. Qed.

Lemma int64_of_uint64_small (x : Z) : x <= maxInt64 -> int64_of_uint64 x = x.
Proof.
  unfold int64_of_uint64, maxInt64. intros Hx.
  destruct (Z.ltb_spec x (2 ^ 63)); [reflexivity | lia].
Qed.

(** ** The monad *)

Lemma bind_Ok {S A B} (m : IO S A) (k : A -> IO S B) (s s' : S) (a : A) :
  m s = (s', Ok a) -> bind m k s = k a s'.
Proof. intros E. unfold bind. rewrite E. reflexivity. Qed.

Lemma bind_Err {S A B} (m : IO S A) (k : A -> IO S B) (s s' : S) (e : error) :
  m s = (s', Err e) -> bind m k s = (s', Err e).
Proof. intros E. unfold bind. rewrite E. reflexivity. Qed.

Lemma bind_inv_Ok {S A B} (m : IO S A) (k : A -> IO S B) (s s' : S) (b : B) :
  bind m k s = (s', Ok b) -> exists s1 a, m s = (s1, Ok a) /\ k a s1 = (s', Ok b).
Proof.
  unfold bind. destruct (m s) as [s1 [a|e]]; [|discriminate]. intros E. by exists s1, a.
Qed.

(** ** Reading and seeking in a file *)

Lemma advance_advance (f : File) (a b : Z) : advance (advance f a) b = advance f (a + b).
Proof. unfold advance. cbn [contents offset]. by rewrite Z.add_assoc. Qed.

Lemma offset_advance (f : File) (n : Z) : offset (advance f n) = offset f + n.
Proof. reflexivity. Qed.

Lemma contents_advance (f : File) (n : Z) : contents (advance f n) = contents f.
Proof. reflexivity. Qed.

Lemma unread_advance (f : File) (chunk rest : list byte) :
  0 <= offset f -> unread f = chunk ++ rest ->
  unread (advance f (Z.of_nat (length chunk))) = rest.
Proof.
  unfold unread, advance. cbn [contents offset]. intros Ho Hu.
  replace (Z.to_nat (offset f + Z.of_nat (length chunk)))
    with (Z.to_nat (offset f) + length chunk)%nat by lia.
  rewrite <- drop_drop, Hu. apply drop_app_length.
Qed.

Lemma unread_bound (f : File) (chunk rest : list byte) :
  0 <= offset f -> unread f = chunk ++ rest -> chunk <> [] ->
  offset f + Z.of_nat (length chunk) <= file_size f.
Proof.
  unfold unread, file_size. intros Ho Hu Hne.
  assert (Hl := f_equal length Hu). rewrite length_drop, length_app in Hl.
  destruct chunk; [done|]. simpl in *. lia.
Qed.

(** Reading exactly the bytes that lie at the cursor. *)
Lemma File_ReadFull_chunk (f : File) (n : nat) (chunk rest : list byte) :
  0 <= offset f -> unread f = chunk ++ rest -> length chunk = n ->
  File_ReadFull n f = (advance f (Z.of_nat n), Ok chunk).
Proof.
  intros Ho Hu Hn. unfold File_ReadFull.
  destruct (Nat.eqb_spec n 0) as [->|Hne].
  - destruct chunk; [|discriminate]. unfold advance. destruct f; simpl.
    rewrite Z.add_0_r. reflexivity.
  - assert (Hl := f_equal length Hu). unfold unread in Hl.
    rewrite length_drop, length_app in Hl.
    destruct (Z.leb_spec (Z.of_nat (length (contents f))) (offset f)); [lia|].
    destruct (Z.ltb_spec (Z.of_nat (length (contents f))) (offset f + Z.of_nat n)); [lia|].
    unfold advance. f_equal. f_equal. unfold unread in Hu. rewrite Hu.
    subst n. rewrite take_app_length. reflexivity.
Qed.

(** Reading [chunk] and going on with what follows it. *)
Lemma ReadFull_step {B} (f : File) (n : nat) (chunk rest : list byte)
    (k : list byte -> IO File B) :
  0 <= offset f -> unread f = chunk ++ rest -> length chunk = n ->
  bind (ReadFull n) k f = k chunk (advance f (Z.of_nat n))
  /\ 0 <= offset (advance f (Z.of_nat n))
  /\ unread (advance f (Z.of_nat n)) = rest.
Proof.
  intros Ho Hu Hn. split; [|split].
  - apply bind_Ok. apply (File_ReadFull_chunk f n chunk rest); assumption.
  - rewrite offset_advance. lia.
  - subst n. by apply unread_advance.
Qed.

(** [read_chunk c r]: the next [ReadFull] of the goal reads [c] and leaves
    [r]; the side condition is the length of [c]. *)
Ltac read_chunk c r :=
  match goal with
  | Ho : 0 <= offset ?f, Hu : unread ?f = _ |- context [bind (ReadFull ?n) ?k ?f] =>
      let E := fresh "E" in
      let Ho' := fresh "Ho" in
      let Hu' := fresh "Hu" in
      destruct (ReadFull_step f n c r k Ho Hu) as (E & Ho' & Hu');
      [ try reflexivity
      | rewrite E; clear E; clear Ho Hu; rewrite ?advance_advance in * ]
  end.

Lemma File_Seek_start (f : File) (off : Z) :
  0 <= off <= maxInt64 ->
  Seek off SeekStart f = (mkFile (contents f) off, Ok off).
Proof.
  intros Hr. cbn. unfold File_Seek.
  destruct (Z.ltb_spec off 0); [lia|].
  destruct (Z.ltb_spec maxInt64 off); [lia|].
  reflexivity.
Qed.

Lemma File_Seek_current (f : File) (off : Z) :
  0 <= offset f + off <= maxInt64 ->
  Seek off SeekCurrent f = (advance f off, Ok (offset f + off)).
Proof.
  intros Hr. cbn. unfold File_Seek.
  destruct (Z.ltb_spec (offset f + off) 0); [lia|].
  destruct (Z.ltb_spec maxInt64 (offset f + off)); [lia|].
  reflexivity.
Qed.

(** What a read tells about the cursor. *)
Lemma File_ReadFull_inv (n : nat) (f f' : File) (r : result (list byte)) :
  File_ReadFull n f = (f', r) ->
  contents f' = contents f /\ offset f <= offset f'
  /\ (forall bs, r = Ok bs ->
        offset f' = offset f + Z.of_nat n
        /\ (n <> 0%nat -> offset f < file_size f /\ offset f' <= file_size f))
  /\ (forall e, r = Err e -> e = EOF \/ e = ErrUnexpectedEOF).
Proof.
  unfold File_ReadFull, file_size.
  destruct (Nat.eqb_spec n 0) as [->|Hn].
  - intros [= <- <-]. repeat split; try lia; done.
  - destruct (Z.leb_spec (Z.of_nat (length (contents f))) (offset f)).
    + intros [= <- <-]. repeat split; try lia; try discriminate.
      intros e [= <-]. by left.
    + destruct (Z.ltb_spec (Z.of_nat (length (contents f))) (offset f + Z.of_nat n)).
      * intros [= <- <-]. cbn. repeat split; try lia; try discriminate.
        intros e [= <-]. by right.
      * intros [= <- <-]. cbn. repeat split; try lia; discriminate.
Qed.

Lemma File_Seek_current_inv (off : Z) (f f' : File) (r : result Z) :
  0 <= off -> File_Seek off SeekCurrent f = (f', r) ->
  contents f' = contents f /\ offset f <= offset f'.
Proof.
  intros Hoff. unfold File_Seek. destruct (_ || _).
  - intros [= <- _]. split; [reflexivity | lia].
  - intros [= <- _]. cbn. split; [reflexivity | lia].
Qed.

(** *** Forward computations *)

Lemma forward_ret {A} (a : A) : forward (ret a).
Proof. intros f f' r [= <- _]. split; [reflexivity | lia]. Qed.

Lemma forward_fail {A} (e : error) : forward (@fail File A e).
Proof. intros f f' r [= <- _]. split; [reflexivity | lia]. Qed.

Lemma forward_bind {A B} (m : IO File A) (k : A -> IO File B) :
  forward m -> (forall a, forward (k a)) -> forward (bind m k).
Proof.
  intros Hm Hk f f' r. unfold bind. destruct (m f) as [f1 [a|e]] eqn:E.
  - intros Ek. destruct (Hm _ _ _ E) as [Hc Ho], (Hk a _ _ _ Ek) as [Hc' Ho'].
    split; [congruence | lia].
  - intros [= <- _]. exact (Hm _ _ _ E).
Qed.

Lemma forward_ReadFull (n : nat) : forward (ReadFull n).
Proof. intros f f' r E. apply File_ReadFull_inv in E. tauto. Qed.

Create HintDb readers discriminated.
#[export] Hint Resolve forward_ret forward_fail forward_bind forward_ReadFull : readers.

(** *** Computations that fail only by a short read *)

Lemma short_read_errors_ret {A} (a : A) : short_read_errors (ret a).
Proof. intros f f' e [=]. Qed.

Lemma short_read_errors_bind {A B} (m : IO File A) (k : A -> IO File B) :
  short_read_errors m -> (forall a, short_read_errors (k a)) ->
  short_read_errors (bind m k).
Proof.
  intros Hm Hk f f' e. unfold bind. destruct (m f) as [f1 [a|e1]] eqn:E.
  - apply Hk.
  - intros [= <- <-]. exact (Hm _ _ _ E).
Qed.

Lemma short_read_errors_ReadFull (n : nat) : short_read_errors (ReadFull n).
Proof. intros f f' e E. apply File_ReadFull_inv in E as (_ & _ & _ & He). by apply He. Qed.

#[export] Hint Resolve short_read_errors_ret short_read_errors_bind
  short_read_errors_ReadFull : readers.

(** ** The readers on a file *)

Lemma ReadFPDTRecordHeader_File (f : File) (b0 b1 b2 b3 : byte) (rest : list byte) :
  0 <= offset f -> unread f = b0 :: b1 :: b2 :: b3 :: rest ->
  ReadFPDTRecordHeader f = (advance f 4, Ok (le_uint [b0; b1], byte_Z b2, byte_Z b3)).
Proof.
  intros Ho Hu. unfold ReadFPDTRecordHeader.
  read_chunk [b0; b1] (b2 :: b3 :: rest).
  read_chunk [b2] (b3 :: rest).
  read_chunk [b3] rest.
  unfold ret, LittleEndian_Uint16. cbn [take].
  rewrite !le_uint_single. reflexivity.
Qed.

(** A header that is read moves the cursor by 4, inside the device. *)
Lemma ReadFPDTRecordHeader_File_inv (f f1 : File) (h : Z * Z * Z) :
  ReadFPDTRecordHeader f = (f1, Ok h) ->
  contents f1 = contents f /\ offset f1 = offset f + 4 /\ offset f < file_size f.
Proof.
  unfold ReadFPDTRecordHeader. intros E.
  apply bind_inv_Ok in E as (fa & ty & Ea & E).
  apply bind_inv_Ok in E as (fb & len & Eb & E).
  apply bind_inv_Ok in E as (fc & rev & Ec & E).
  injection E as <- _.
  apply File_ReadFull_inv in Ea as (Ca & _ & Ha & _), Eb as (Cb & _ & Hb & _),
      Ec as (Cc & _ & Hc & _).
  destruct (Ha _ eq_refl) as [Ha1 Ha2], (Hb _ eq_refl) as [Hb1 _], (Hc _ eq_refl) as [Hc1 _].
  destruct Ha2 as [Ha2 _]; [done|].
  split; [congruence|]. split; [lia | exact Ha2].
Qed.

Lemma short_read_errors_ReadFPDTRecordHeader : short_read_errors ReadFPDTRecordHeader.
Proof. unfold ReadFPDTRecordHeader. auto 10 with readers. Qed.

(** The decoder on the bytes at the cursor. *)
Lemma readDynamicRecord_File (f : File) (recordLength : Z)
    (hk pid ts guid desc rest : list byte) :
  0 <= offset f ->
  unread f = hk ++ pid ++ ts ++ guid ++ desc ++ rest ->
  length hk = 2%nat -> length pid = 4%nat -> length ts = 8%nat -> length guid = 16%nat ->
  length desc = Z.to_nat (wrap 8 (recordLength - 34)) ->
  readFirmwarePerformanceDataTableDynamicRecord recordLength f
  = (advance f (30 + wrap 8 (recordLength - 34)),
     Ok {| HookType := map_index eventTypeMap (le_uint hk);
           ProcessorIdentifier := le_uint pid;
           Timestamp := le_uint ts;
           GUID := guid;
           Description := string_of_list_byte desc |}).
Proof.
  intros Ho Hu H2 H4 H8 H16 Hd.
  assert (Hw : 0 <= wrap 8 (recordLength - 34)) by (apply Z.mod_pos_bound; lia).
  unfold readFirmwarePerformanceDataTableDynamicRecord.
  read_chunk hk (pid ++ ts ++ guid ++ desc ++ rest); [exact H2|].
  read_chunk pid (ts ++ guid ++ desc ++ rest); [exact H4|].
  read_chunk ts (guid ++ desc ++ rest); [exact H8|].
  read_chunk guid (desc ++ rest); [exact H16|].
  read_chunk desc rest; [exact Hd|].
  unfold ret, LittleEndian_Uint16, LittleEndian_Uint32, LittleEndian_Uint64.
  rewrite !take_ge by lia.
  f_equal. f_equal. lia.
Qed.

Lemma forward_readDynamicRecord (recordLength : Z) :
  forward (readFirmwarePerformanceDataTableDynamicRecord recordLength).
Proof. unfold readFirmwarePerformanceDataTableDynamicRecord. auto 12 with readers. Qed.

Lemma short_read_errors_readDynamicRecord (recordLength : Z) :
  short_read_errors (readFirmwarePerformanceDataTableDynamicRecord recordLength).
Proof. unfold readFirmwarePerformanceDataTableDynamicRecord. auto 12 with readers. Qed.

(** The signature check on the bytes at the base address: [sig] and [lenb]
    are the 4 + 4 bytes found there. *)
Lemma verifyFBPTSignature_File (f : File) (addr : Z) (sig lenb rest : list byte) :
  0 <= addr <= maxInt64 ->
  drop (Z.to_nat addr) (contents f) = sig ++ lenb ++ rest ->
  length sig = 4%nat -> length lenb = 4%nat ->
  verifyFBPTSignature addr f
  = if String.eqb (string_of_list_byte sig) FBPTStructureSig
    then (mkFile (contents f) (addr + 8), Ok (le_uint lenb))
    else (mkFile (contents f) (addr + 4),
          Err (errors_New
                 (String.append "FBPT structure signature check failed. Expected: FBPT, Got: "
                    (string_of_list_byte sig)))).
Proof.
  intros Ha Hd Hs Hl. unfold verifyFBPTSignature.
  rewrite int64_of_uint64_small by lia.
  rewrite (bind_Ok _ _ f _ _ (File_Seek_start f addr Ha)).
  set (f0 := mkFile (contents f) addr).
  assert (Ho : 0 <= offset f0) by (cbn; lia).
  assert (Hu : unread f0 = sig ++ lenb ++ rest) by exact Hd.
  read_chunk sig (lenb ++ rest); [exact Hs|].
  destruct (String.eqb (string_of_list_byte sig) FBPTStructureSig); cbn [negb].
  - read_chunk lenb rest; [exact Hl|].
    unfold ret, LittleEndian_Uint32. rewrite take_ge by lia. reflexivity.
  - reflexivity.
Qed.

(** The signature check leaves the bytes of the device alone. *)
Lemma verifyFBPTSignature_contents (fbptAddr : Z) (f f' : File) (r : result Z) :
  verifyFBPTSignature fbptAddr f = (f', r) -> contents f' = contents f.
Proof.
  unfold verifyFBPTSignature, bind at 1. cbn [Seek File_ReadSeeker]. unfold File_Seek.
  destruct (_ || _); [by intros [= <- _]|].
  set (f0 := mkFile _ _). intros E.
  assert (Hf : forward
                 (fbptSig <-- ReadFull 4 ;;
                  if negb (String.eqb (string_of_list_byte fbptSig) FBPTStructureSig)
                  then fail (errors_New
                         (String.append
                            "FBPT structure signature check failed. Expected: FBPT, Got: "
                            (string_of_list_byte fbptSig)))
                  else fbptLength <-- ReadFull 4 ;; ret (LittleEndian_Uint32 fbptLength))).
  { apply forward_bind; [apply forward_ReadFull | intros sig].
    destruct (negb _); auto with readers. }
  destruct (Hf _ _ _ E) as [Hc _]. exact Hc.
Qed.

(** ** The layout *)

Lemma length_encode_dynamic_body (code : Z) (r : MEASUREMENT_RECORD) :
  length (GUID r) = 16%nat ->
  Z.of_nat (length (encode_dynamic_body code r))
  = 30 + Z.of_nat (length (list_byte_of_string (Description r))).
Proof.
  intros Hg. unfold encode_dynamic_body. rewrite !length_app, !length_le_bytes, Hg. lia.
Qed.

Lemma declared_length_dynamic (rev code : Z) (r : MEASUREMENT_RECORD) :
  encodable code r ->
  declared_length (DynamicString rev code r)
  = 34 + Z.of_nat (length (list_byte_of_string (Description r))).
Proof.
  intros (Hc & Hl & Hp & Ht & Hg & Hd).
  unfold declared_length, EFI_ACPI_5_0_FPDT_PERFORMANCE_RECORD_HEADER_SIZE.
  cbn [record_body]. rewrite length_encode_dynamic_body by exact Hg. lia.
Qed.

Lemma declared_length_range (t : TableRecord) :
  well_formed_record t -> 4 <= declared_length t <= 255.
Proof.
  destruct t as [rev code r | ty rev payload]; cbn [well_formed_record].
  - intros Hwf. rewrite (declared_length_dynamic rev code r Hwf).
    destruct Hwf as (_ & _ & _ & _ & _ & Hd). lia.
  - intros (_ & _ & Hp).
    unfold declared_length, EFI_ACPI_5_0_FPDT_PERFORMANCE_RECORD_HEADER_SIZE.
    cbn [record_body]. lia.
Qed.

Lemma length_encode_record (t : TableRecord) :
  Z.of_nat (length (encode_record t)) = declared_length t.
Proof.
  unfold encode_record, declared_length, EFI_ACPI_5_0_FPDT_PERFORMANCE_RECORD_HEADER_SIZE.
  rewrite !length_app, length_le_bytes. cbn [length]. lia.
Qed.

Lemma record_type_range (t : TableRecord) :
  well_formed_record t -> 0 <= record_type t < 2 ^ 16.
Proof.
  destruct t; cbn [well_formed_record record_type].
  - intros _. unfold FPDT_DYNAMIC_STRING_EVENT_RECORD_IDENTIFIER. lia.
  - tauto.
Qed.

Lemma total_length_cons (t : TableRecord) (ts : list TableRecord) :
  total_length (t :: ts) = declared_length t + total_length ts.
Proof. reflexivity. Qed.

Lemma total_length_nonneg (ts : list TableRecord) :
  Forall well_formed_record ts -> 0 <= total_length ts.
Proof.
  induction 1 as [|t ts Ht _ IH]; [cbn; lia|].
  rewrite total_length_cons. pose proof (declared_length_range t Ht). lia.
Qed.

Lemma encode_records_cons (t : TableRecord) (ts : list TableRecord) :
  encode_records (t :: ts) = encode_record t ++ encode_records ts.
Proof. reflexivity. Qed.

Lemma measurements_cons_dynamic (rev code : Z) (r : MEASUREMENT_RECORD)
    (ts : list TableRecord) :
  measurements (DynamicString rev code r :: ts) = r :: measurements ts.
Proof. reflexivity. Qed.

Lemma measurements_cons_other (ty rev : Z) (p : list byte) (ts : list TableRecord) :
  measurements (OtherRecord ty rev p :: ts) = measurements ts.
Proof. reflexivity. Qed.

(** Decoding an encoded body gives the record back. *)
Lemma readDynamicRecord_encoded (f : File) (code : Z) (r : MEASUREMENT_RECORD)
    (rest : list byte) :
  0 <= offset f ->
  encodable code r ->
  unread f = encode_dynamic_body code r ++ rest ->
  readFirmwarePerformanceDataTableDynamicRecord
    (34 + Z.of_nat (length (list_byte_of_string (Description r)))) f
  = (advance f (Z.of_nat (length (encode_dynamic_body code r))), Ok r).
Proof.
  intros Ho (Hc & Hl & Hp & Ht & Hg & Hd) Hu.
  set (d := list_byte_of_string (Description r)) in *.
  assert (Hw : wrap 8 (34 + Z.of_nat (length d) - 34) = Z.of_nat (length d)).
  { replace (34 + Z.of_nat (length d) - 34) with (Z.of_nat (length d)) by lia.
    apply wrap_small. change (2 ^ 8) with 256. lia. }
  rewrite (readDynamicRecord_File f _ (le_bytes 2 code) (le_bytes 4 (ProcessorIdentifier r))
             (le_bytes 8 (Timestamp r)) (GUID r) d rest Ho).
  - rewrite Hw, length_encode_dynamic_body by exact Hg. fold d.
    rewrite !le_uint_le_bytes by assumption.
    rewrite <- Hl. unfold d. rewrite string_of_list_byte_of_string.
    destruct r; reflexivity.
  - rewrite Hu. unfold encode_dynamic_body. fold d. by rewrite <- !app_assoc.
  - apply length_le_bytes.
  - apply length_le_bytes.
  - apply length_le_bytes.
  - exact Hg.
  - rewrite Hw. lia.
Qed.

(** ** The loop on a file *)

(** One iteration over the bytes of a well-formed record. *)
Lemma loop_body_record (st : @LoopState File) (t : TableRecord) (rest : list byte) :
  0 <= offset (ls_f st) ->
  file_size (ls_f st) <= maxInt64 ->
  well_formed_record t ->
  unread (ls_f st) = encode_record t ++ rest ->
  loop_body st
  = Continue (mkLoop (advance (ls_f st) (declared_length t))
                (store_record t (ls_index st) (ls_measurementRecords st))
                (next_index t (ls_index st))
                (wrap 32 (ls_tableBytesRead st + declared_length t))).
Proof.
  intros Ho Hmax Hwf Hu.
  pose proof (declared_length_range t Hwf) as Hlen.
  pose proof (record_type_range t Hwf) as Hty.
  assert (Hend : offset (ls_f st) + declared_length t <= file_size (ls_f st)).
  { rewrite <- length_encode_record. apply (unread_bound _ _ rest Ho Hu).
    unfold encode_record. destruct (le_bytes 2 (record_type t)) eqn:E; [|done].
    apply (f_equal length) in E. by rewrite length_le_bytes in E. }
  unfold loop_body.
  assert (Hu' := Hu). unfold encode_record in Hu'.
  destruct (le_bytes 2 (record_type t)) as [|b0 [|b1 [|]]] eqn:E;
    try (apply (f_equal length) in E; rewrite length_le_bytes in E; discriminate).
  cbn [app] in Hu'.
  rewrite (ReadFPDTRecordHeader_File _ _ _ _ _ _ Ho Hu').
  rewrite <- E, le_uint_le_bytes by exact Hty.
  rewrite byte_Z_of_Z, (Z.mod_small (declared_length t)) by lia.
  assert (Hu4 : unread (advance (ls_f st) 4) = record_body t ++ rest).
  { apply (unread_advance _
             [b0; b1; byte_of_Z (declared_length t); byte_of_Z (record_revision t)]);
      [exact Ho | exact Hu']. }
  destruct t as [rev code r | ty rev payload]; cbn [well_formed_record] in Hwf.
  - cbn [record_type record_body store_record next_index is_dynamic] in *.
    rewrite Z.eqb_refl.
    rewrite (declared_length_dynamic rev code r Hwf).
    rewrite (readDynamicRecord_encoded _ code r rest);
      [| rewrite offset_advance; lia | exact Hwf | exact Hu4].
    rewrite advance_advance.
    destruct Hwf as (_ & _ & _ & _ & Hg & _).
    rewrite length_encode_dynamic_body by exact Hg.
    rewrite Z.add_assoc. reflexivity.
  - cbn [record_type record_body store_record next_index is_dynamic] in *.
    destruct Hwf as (_ & Hne & Hp).
    destruct (Z.eqb_spec ty FPDT_DYNAMIC_STRING_EVENT_RECORD_IDENTIFIER) as [|_]; [done|].
    assert (Hw : wrap 8 (declared_length (OtherRecord ty rev payload)
                         - EFI_ACPI_5_0_FPDT_PERFORMANCE_RECORD_HEADER_SIZE)
                 = declared_length (OtherRecord ty rev payload) - 4).
    { unfold EFI_ACPI_5_0_FPDT_PERFORMANCE_RECORD_HEADER_SIZE.
      apply wrap_small. change (2 ^ 8) with 256. lia. }
    rewrite Hw, File_Seek_current.
    + rewrite advance_advance, Zplus_minus. reflexivity.
    + rewrite offset_advance. lia.
Qed.

(** The loop over the bytes of well-formed records does what [run_table]
    says, and ends normally. *)
Lemma scan_loop_run_table (ts : list TableRecord) :
  forall (fuel : nat) (tablelength : Z) (st : @LoopState File) (rest : list byte),
    0 <= offset (ls_f st) ->
    file_size (ls_f st) <= maxInt64 ->
    Forall well_formed_record ts ->
    unread (ls_f st) = encode_records ts ++ rest ->
    0 <= ls_tableBytesRead st ->
    wrap 32 (tablelength - EFI_ACPI_5_0_FBPT_HEADER_SIZE)
      = ls_tableBytesRead st + total_length ts ->
    (length ts <= fuel)%nat ->
    scan_loop fuel tablelength st = Some (Finished (run_table ts st)).
Proof.
  induction ts as [|t ts IH]; intros fuel tablelength st rest Ho Hmax Hwf Hu Hb Hbound Hfuel.
  - cbn [total_length foldr] in Hbound.
    assert (Hc : loop_cond tablelength st = false).
    { unfold loop_cond. rewrite Hbound, Z.add_0_r, Z.ltb_irrefl. reflexivity. }
    destruct fuel; cbn [scan_loop run_table]; by rewrite Hc.
  - apply Forall_cons in Hwf as [Ht Hts].
    pose proof (declared_length_range t Ht) as Hlen.
    pose proof (total_length_nonneg ts Hts) as Htot.
    pose proof (wrap_range 32 (tablelength - EFI_ACPI_5_0_FBPT_HEADER_SIZE) ltac:(lia)) as Hw.
    rewrite total_length_cons in Hbound.
    cbn [run_table].
    destruct (Nat.ltb_spec (ls_index st) maxNumberOfFBPTPerfRecords) as [Hidx|Hidx].
    + assert (Hc : loop_cond tablelength st = true).
      { unfold loop_cond. apply andb_true_iff. split.
        - apply Z.ltb_lt. lia.
        - by apply Nat.ltb_lt. }
      destruct fuel as [|fuel]; [cbn [length] in Hfuel; lia|].
      cbn [scan_loop]. rewrite Hc.
      rewrite encode_records_cons, <- app_assoc in Hu.
      rewrite (loop_body_record st t _ Ho Hmax Ht Hu).
      rewrite wrap_small by lia.
      apply (IH fuel tablelength _ rest); cbn [ls_f ls_tableBytesRead].
      * rewrite offset_advance. lia.
      * exact Hmax.
      * exact Hts.
      * rewrite <- length_encode_record. by apply unread_advance.
      * lia.
      * lia.
      * cbn [length] in Hfuel. lia.
    + assert (Hc : loop_cond tablelength st = false).
      { unfold loop_cond. apply andb_false_iff. right. apply Nat.ltb_ge. exact Hidx. }
      destruct fuel; cbn [scan_loop]; by rewrite Hc.
Qed.

(** *** What [run_table] computes *)

Lemma all_reached_below (ts : list TableRecord) (idx : nat) :
  (idx + length (measurements ts) < maxNumberOfFBPTPerfRecords)%nat ->
  all_reached ts idx = true.
Proof.
  revert idx. induction ts as [|t ts IH]; intros idx Hn; [reflexivity|].
  cbn [all_reached]. apply andb_true_iff. split.
  - apply Nat.ltb_lt. lia.
  - apply IH. destruct t; cbn [next_index is_dynamic].
    + rewrite measurements_cons_dynamic in Hn. cbn [length] in Hn. lia.
    + rewrite measurements_cons_other in Hn. exact Hn.
Qed.

(** When every record is reached the whole table is consumed. *)
Lemma run_table_all_reached (ts : list TableRecord) (st : @LoopState File) :
  all_reached ts (ls_index st) = true ->
  ls_tableBytesRead (run_table ts st) = ls_tableBytesRead st + total_length ts
  /\ offset (ls_f (run_table ts st)) = offset (ls_f st) + total_length ts
  /\ ls_index (run_table ts st) = (ls_index st + length (measurements ts))%nat.
Proof.
  revert st. induction ts as [|t ts IH]; intros st Hr.
  - change (measurements []) with (@nil MEASUREMENT_RECORD).
    cbn [run_table total_length foldr length].
    rewrite !Z.add_0_r, Nat.add_0_r. done.
  - cbn [all_reached] in Hr. apply andb_true_iff in Hr as [Hlt Hr].
    cbn [run_table]. rewrite Hlt.
    destruct (IH (mkLoop (advance (ls_f st) (declared_length t))
                    (store_record t (ls_index st) (ls_measurementRecords st))
                    (next_index t (ls_index st))
                    (ls_tableBytesRead st + declared_length t)) Hr) as (E1 & E2 & E3).
    rewrite E1, E2, E3, total_length_cons. cbn [ls_tableBytesRead ls_f ls_index].
    rewrite offset_advance. repeat split; [lia | lia |].
    destruct t; cbn [next_index is_dynamic].
    + rewrite measurements_cons_dynamic. cbn [length]. lia.
    + rewrite measurements_cons_other. lia.
Qed.

(** The index and the slice after the scan, whether the cap is hit or not. *)
Lemma run_table_records (ts : list TableRecord) (st : @LoopState File) :
  (ls_index st <= length (ls_measurementRecords st))%nat ->
  length (ls_measurementRecords st) = maxNumberOfFBPTPerfRecords ->
  ls_index (run_table ts st)
    = Nat.min maxNumberOfFBPTPerfRecords (ls_index st + length (measurements ts))
  /\ ls_measurementRecords (run_table ts st)
    = take maxNumberOfFBPTPerfRecords
        (take (ls_index st) (ls_measurementRecords st) ++ measurements ts
           ++ drop (ls_index st + length (measurements ts)) (ls_measurementRecords st)).
Proof.
  revert st. induction ts as [|t ts IH]; intros st Hle Hlen.
  - change (measurements []) with (@nil MEASUREMENT_RECORD).
    cbn [run_table length app]. rewrite Nat.add_0_r, take_drop.
    split; [lia|]. rewrite take_ge by lia. reflexivity.
  - cbn [run_table].
    destruct (Nat.ltb_spec (ls_index st) maxNumberOfFBPTPerfRecords) as [Hlt|Hge].
    + destruct t as [rev code r | ty rev payload].
      * destruct (IH (mkLoop (advance (ls_f st) (declared_length (DynamicString rev code r)))
                       (<[ls_index st := r]> (ls_measurementRecords st))
                       (Datatypes.S (ls_index st))
                       (ls_tableBytesRead st + declared_length (DynamicString rev code r))))
          as (E1 & E2); cbn [ls_index ls_measurementRecords];
          rewrite ?length_insert; [lia | exact Hlen |].
        cbn [store_record next_index is_dynamic]. rewrite E1, E2.
        cbn [ls_index ls_measurementRecords]. rewrite measurements_cons_dynamic.
        cbn [length]. split; [f_equal; lia|]. f_equal.
        rewrite (take_S_r _ _ r) by (apply list_lookup_insert_eq; lia).
        rewrite take_insert_ge by lia.
        rewrite drop_insert_lt by lia.
        rewrite <- app_assoc. cbn [app]. rewrite Nat.add_succ_r. reflexivity.
      * destruct (IH (mkLoop (advance (ls_f st) (declared_length (OtherRecord ty rev payload)))
                       (ls_measurementRecords st) (ls_index st)
                       (ls_tableBytesRead st + declared_length (OtherRecord ty rev payload))))
          as (E1 & E2); cbn [ls_index ls_measurementRecords]; [lia | exact Hlen |].
        cbn [store_record next_index is_dynamic]. rewrite E1, E2.
        cbn [ls_index ls_measurementRecords]. rewrite measurements_cons_other. done.
    + split; [lia|].
      rewrite (take_ge (ls_measurementRecords st)) by lia.
      rewrite take_app_length' by lia. reflexivity.
Qed.

(** The scan of a synthetic table that lies at [length pre] in the device:
    the signature check gives its length and the loop runs as [run_table]. *)
Lemma scan_encoded_table (ts : list TableRecord) (pre post : list byte) (o : Z) (fuel : nat) :
  Forall well_formed_record ts ->
  EFI_ACPI_5_0_FBPT_HEADER_SIZE + total_length ts < 2 ^ 32 ->
  Z.of_nat (length (pre ++ encode_table ts ++ post)) <= maxInt64 ->
  (length ts <= fuel)%nat ->
  let f0 := mkFile (pre ++ encode_table ts ++ post) o in
  let f1 := mkFile (pre ++ encode_table ts ++ post) (Z.of_nat (length pre) + 8) in
  let tablelength := EFI_ACPI_5_0_FBPT_HEADER_SIZE + total_length ts in
  verifyFBPTSignature (Z.of_nat (length pre)) f0 = (f1, Ok tablelength)
  /\ scan_loop fuel tablelength (initial_state f1)
     = Some (Finished (run_table ts (initial_state f1))).
Proof.
  intros Hwf Htl Hmax Hfuel f0 f1 tablelength.
  pose proof (total_length_nonneg ts Hwf) as Htot.
  unfold EFI_ACPI_5_0_FBPT_HEADER_SIZE in *.
  assert (Hpre : Z.of_nat (length pre) <= maxInt64).
  { rewrite length_app in Hmax. lia. }
  split.
  - rewrite (verifyFBPTSignature_File f0 _ (list_byte_of_string FBPTStructureSig)
               (le_bytes 4 (8 + total_length ts)) (encode_records ts ++ post)).
    + rewrite string_of_list_byte_of_string, String.eqb_refl.
      rewrite le_uint_le_bytes by (change (8 * Z.of_nat 4) with 32; lia).
      reflexivity.
    + lia.
    + subst f0. cbn [contents]. rewrite Nat2Z.id, drop_app_length.
      unfold encode_table, EFI_ACPI_5_0_FBPT_HEADER_SIZE. by rewrite <- !app_assoc.
    + reflexivity.
    + apply length_le_bytes.
  - apply (scan_loop_run_table ts fuel tablelength (initial_state f1) post).
    + cbn. lia.
    + exact Hmax.
    + exact Hwf.
    + unfold unread. cbn [initial_state ls_f f1 contents offset].
      replace (Z.to_nat (Z.of_nat (length pre) + 8)) with (length pre + 8)%nat by lia.
      rewrite <- drop_drop, drop_app_length.
      unfold encode_table. rewrite <- !app_assoc.
      change (list_byte_of_string FBPTStructureSig ++ le_bytes 4 ?x ++ ?y)
        with ((list_byte_of_string FBPTStructureSig ++ le_bytes 4 x) ++ y).
      rewrite drop_app_length'; [reflexivity|].
      rewrite length_app, length_le_bytes. reflexivity.
    + cbn. lia.
    + cbn [initial_state ls_tableBytesRead]. subst tablelength.
      rewrite wrap_small; unfold EFI_ACPI_5_0_FBPT_HEADER_SIZE; lia.
    + exact Hfuel.
Qed.

(** *** Termination *)

(** An iteration that falls through has moved the cursor forward. *)
Lemma loop_body_progress (st st' : @LoopState File) :
  loop_body st = Continue st' ->
  contents (ls_f st') = contents (ls_f st)
  /\ offset (ls_f st) < file_size (ls_f st)
  /\ offset (ls_f st) < offset (ls_f st').
Proof.
  unfold loop_body.
  destruct (ReadFPDTRecordHeader (ls_f st)) as [f1 [[[ty len] rev]|e]] eqn:Eh; [|discriminate].
  apply ReadFPDTRecordHeader_File_inv in Eh as (Hc & Ho & Hs).
  destruct (ty =? FPDT_DYNAMIC_STRING_EVENT_RECORD_IDENTIFIER).
  - destruct (readFirmwarePerformanceDataTableDynamicRecord len f1) as [f2 [r|e]] eqn:Ed;
      [|discriminate].
    apply forward_readDynamicRecord in Ed as [Hc2 Ho2].
    intros [= <-]. cbn [ls_f]. split; [congruence|]. split; [|lia].
    unfold file_size in *. congruence.
  - destruct (Seek _ SeekCurrent f1) as [f2 [x|e]] eqn:Es; [|discriminate].
    apply File_Seek_current_inv in Es as [Hc2 Ho2];
      [| apply (wrap_range 8); lia].
    intros [= <-]. cbn [ls_f]. split; [congruence|]. split; [|lia].
    unfold file_size in *. congruence.
Qed.

(** The loop ends: the unread part of the device bounds the number of
    iterations, whatever the bytes are. *)
Lemma scan_loop_terminates (fuel : nat) (tablelength : Z) :
  forall st : @LoopState File,
    (Z.to_nat (file_size (ls_f st) - offset (ls_f st)) < fuel)%nat ->
    exists out, scan_loop fuel tablelength st = Some out
      /\ match out with
         | Finished st' => loop_cond tablelength st' = false
         | Aborted _ _ => True
         end.
Proof.
  induction fuel as [|fuel IH]; intros st Hm; [lia|]. cbn [scan_loop].
  destruct (loop_cond tablelength st) eqn:Hc; [|by exists (Finished st)].
  destruct (loop_body st) as [st1|st1 err] eqn:Hb.
  - destruct (loop_body_progress _ _ Hb) as (Hc1 & Hs & Ho).
    apply IH. unfold file_size in *. rewrite Hc1. lia.
  - by exists (Aborted st1 err).
Qed.

(** ** The loop over any reader *)

Section LoopFacts.
Context {S : Type} `{ReadSeeker S}.

Lemma loop_body_Continue (st st' : @LoopState S) :
  loop_body st = Continue st' ->
  match decoded_by st with
  | Some r => ls_index st' = Datatypes.S (ls_index st)
              /\ ls_measurementRecords st' = <[ls_index st := r]> (ls_measurementRecords st)
  | None => ls_index st' = ls_index st
            /\ ls_measurementRecords st' = ls_measurementRecords st
  end.
Proof.
  unfold loop_body, decoded_by.
  destruct (ReadFPDTRecordHeader (ls_f st)) as [f1 [[[ty len] rev]|e]]; [|discriminate].
  destruct (ty =? FPDT_DYNAMIC_STRING_EVENT_RECORD_IDENTIFIER).
  - destruct (readFirmwarePerformanceDataTableDynamicRecord len f1) as [f2 [r|e]];
      [|discriminate].
    intros [= <-]. done.
  - destruct (Seek _ SeekCurrent f1) as [f2 [x|e]]; [|discriminate].
    intros [= <-]. done.
Qed.

Lemma loop_body_Return (st st' : @LoopState S) (err : error) :
  loop_body st = Return st' err ->
  ls_index st' = ls_index st
  /\ (ls_measurementRecords st' = ls_measurementRecords st
      \/ ls_measurementRecords st'
         = <[ls_index st := zero_MEASUREMENT_RECORD]> (ls_measurementRecords st)).
Proof.
  unfold loop_body.
  destruct (ReadFPDTRecordHeader (ls_f st)) as [f1 [[[ty len] rev]|e]].
  - destruct (ty =? FPDT_DYNAMIC_STRING_EVENT_RECORD_IDENTIFIER).
    + destruct (readFirmwarePerformanceDataTableDynamicRecord len f1) as [f2 [r|e]];
        [discriminate|].
      intros [= <- _]. split; [reflexivity|]. by right.
    + destruct (Seek _ SeekCurrent f1) as [f2 [x|e]]; [discriminate|].
      intros [= <- _]. split; [reflexivity|]. by left.
  - intros [= <- _]. split; [reflexivity|]. by left.
Qed.

Lemma zero_from_insert_zero (idx : nat) (recs : list MEASUREMENT_RECORD) :
  zero_from idx recs -> zero_from idx (<[idx := zero_MEASUREMENT_RECORD]> recs).
Proof.
  intros Hz i Hi. rewrite length_insert in Hi.
  destruct (decide (i = idx)) as [->|Hne].
  - apply list_lookup_insert_eq. lia.
  - rewrite list_lookup_insert_ne by done. by apply Hz.
Qed.

Lemma zero_from_insert_next (idx : nat) (r : MEASUREMENT_RECORD)
    (recs : list MEASUREMENT_RECORD) :
  zero_from idx recs -> zero_from (Datatypes.S idx) (<[idx := r]> recs).
Proof.
  intros Hz i Hi. rewrite length_insert in Hi.
  rewrite list_lookup_insert_ne by lia. apply Hz. lia.
Qed.

Lemma zero_from_initial (f : S) :
  zero_from (ls_index (initial_state f)) (ls_measurementRecords (initial_state f)).
Proof.
  intros i Hi. cbn [initial_state ls_measurementRecords] in *.
  rewrite length_replicate in Hi. apply lookup_replicate_2. lia.
Qed.

(** The invariant of the loop: the slice keeps its 2000 entries, the
    entries below the index are the decoded records in order, the entries
    from the index on are zero-valued. *)
Lemma scan_loop_invariant (fuel : nat) (tablelength : Z) :
  forall (st : @LoopState S) (out : @Outcome S),
    length (ls_measurementRecords st) = maxNumberOfFBPTPerfRecords ->
    (ls_index st <= maxNumberOfFBPTPerfRecords)%nat ->
    zero_from (ls_index st) (ls_measurementRecords st) ->
    scan_loop fuel tablelength st = Some out ->
    let st' := outcome_state out in
    let decoded := decoded_records fuel tablelength st in
    ls_index st' = (ls_index st + length decoded)%nat
    /\ (ls_index st' <= maxNumberOfFBPTPerfRecords)%nat
    /\ length (ls_measurementRecords st') = maxNumberOfFBPTPerfRecords
    /\ take (ls_index st') (ls_measurementRecords st')
       = take (ls_index st) (ls_measurementRecords st) ++ decoded
    /\ zero_from (ls_index st') (ls_measurementRecords st').
Proof.
  induction fuel as [|fuel IH]; intros st out Hlen Hidx Hz; cbn [scan_loop decoded_records].
  - destruct (loop_cond tablelength st); [discriminate|].
    intros [= <-]. cbn [outcome_state length]. rewrite Nat.add_0_r, app_nil_r. done.
  - destruct (loop_cond tablelength st) eqn:Hc.
    2:{ intros [= <-]. cbn [outcome_state length]. rewrite Nat.add_0_r, app_nil_r. done. }
    apply andb_true_iff in Hc as [_ Hlt]. apply Nat.ltb_lt in Hlt.
    destruct (loop_body st) as [st1|st1 err] eqn:Hb.
    + pose proof (loop_body_Continue st st1 Hb) as Hst1.
      intros Hrun.
      destruct (decoded_by st) as [r|].
      * destruct Hst1 as [Hi Hr].
        destruct (IH st1 out) as (E1 & E2 & E3 & E4 & E5); try assumption.
        { rewrite Hr, length_insert. exact Hlen. }
        { lia. }
        { rewrite Hi, Hr. by apply zero_from_insert_next. }
        cbn zeta in *. rewrite E1, Hi. cbn [length].
        split; [lia|]. split; [lia|]. split; [exact E3|]. split; [|by rewrite <- Hi, <- E1].
        rewrite <- Hi, <- E1, E4, Hi, Hr.
        rewrite (take_S_r _ _ r) by (apply list_lookup_insert_eq; lia).
        rewrite take_insert_ge by lia. by rewrite <- app_assoc.
      * destruct Hst1 as [Hi Hr].
        destruct (IH st1 out) as (E1 & E2 & E3 & E4 & E5); try assumption.
        { by rewrite Hr. }
        { lia. }
        { by rewrite Hi, Hr. }
        cbn zeta in *. rewrite <- Hi, <- Hr. done.
    + intros [= <-]. cbn [outcome_state length].
      destruct (loop_body_Return st st1 err Hb) as [Hi [Hr|Hr]];
        rewrite Hi, Hr, Nat.add_0_r, app_nil_r, ?length_insert, ?take_insert_ge by lia;
        repeat split; try done.
      by apply zero_from_insert_zero.
Qed.

(** More fuel does not change the outcome. *)
Lemma scan_loop_fuel_mono (fuel fuel' : nat) (tablelength : Z) :
  forall (st : @LoopState S) (out : @Outcome S),
    (fuel <= fuel')%nat ->
    scan_loop fuel tablelength st = Some out ->
    scan_loop fuel' tablelength st = Some out.
Proof.
  revert fuel'. induction fuel as [|fuel IH]; intros fuel' st out Hle.
  - cbn [scan_loop]. destruct (loop_cond tablelength st) eqn:Hc; [discriminate|].
    intros E. destruct fuel'; cbn [scan_loop]; by rewrite Hc.
  - destruct fuel' as [|fuel']; [lia|]. cbn [scan_loop].
    destruct (loop_cond tablelength st); [|done].
    destruct (loop_body st) as [st1|st1 err]; [|done].
    apply IH. lia.
Qed.

End LoopFacts.

(** ** The hook-type table *)

Lemma eventTypeEntries_NoDup : NoDup eventTypeEntries.*1.
Proof. compute_done. Qed.

Lemma eventTypeMap_code_range (code : Z) (name : string) :
  eventTypeMap !! code = Some name -> 0 <= code < 2 ^ 16.
Proof.
  intros Hl. apply elem_of_list_to_map_2 in Hl. unfold eventTypeEntries in Hl.
  repeat (apply elem_of_cons in Hl as [Hl|Hl];
          [injection Hl as -> _; compute; split; congruence|]).
  by apply elem_of_nil in Hl.
Qed.

Section DecoderFacts.
Context {S : Type} `{ReadSeeker S}.

(** When its five reads succeed the decoder succeeds, whatever was read. *)
Lemma readDynamicRecord_reads (recordLength : Z) (f f1 f2 f3 f4 f5 : S)
    (hk pid ts guid desc : list byte) :
  ReadFull 2 f = (f1, Ok hk) ->
  ReadFull 4 f1 = (f2, Ok pid) ->
  ReadFull 8 f2 = (f3, Ok ts) ->
  ReadFull 16 f3 = (f4, Ok guid) ->
  ReadFull (Z.to_nat (wrap 8 (recordLength - 34))) f4 = (f5, Ok desc) ->
  readFirmwarePerformanceDataTableDynamicRecord recordLength f
  = (f5, Ok {| HookType := map_index eventTypeMap (LittleEndian_Uint16 hk);
               ProcessorIdentifier := LittleEndian_Uint32 pid;
               Timestamp := LittleEndian_Uint64 ts;
               GUID := guid;
               Description := string_of_list_byte desc |}).
Proof.
  intros E1 E2 E3 E4 E5. unfold readFirmwarePerformanceDataTableDynamicRecord.
  rewrite (bind_Ok _ _ _ _ _ E1), (bind_Ok _ _ _ _ _ E2), (bind_Ok _ _ _ _ _ E3),
    (bind_Ok _ _ _ _ _ E4), (bind_Ok _ _ _ _ _ E5).
  reflexivity.
Qed.

(** The length that the signature check returns is a [uint32]. *)
Lemma verifyFBPTSignature_range (fbptAddr : Z) (f f1 : S) (tablelength : Z) :
  verifyFBPTSignature fbptAddr f = (f1, Ok tablelength) -> 0 <= tablelength < 2 ^ 32.
Proof.
  unfold verifyFBPTSignature. intros E.
  apply bind_inv_Ok in E as (fa & x & _ & E).
  apply bind_inv_Ok in E as (fb & sig & _ & E).
  destruct (negb _); [discriminate|].
  apply bind_inv_Ok in E as (fc & lenb & _ & E).
  injection E as _ <-. unfold LittleEndian_Uint32.
  pose proof (le_uint_bound (take 4 lenb)) as Hb.
  assert (Hl : (length (take 4 lenb) <= 4)%nat) by (rewrite length_take; lia).
  split; [lia|]. eapply Z.lt_le_trans; [apply Hb|].
  apply Z.pow_le_mono_r; lia.
Qed.

End DecoderFacts.

(** The result of a scan of a synthetic table, cap or no cap. *)
Lemma FindAllFBPTRecords_encoded_table (ts : list TableRecord) (pre post : list byte)
    (fuel : nat) :
  Forall well_formed_record ts ->
  EFI_ACPI_5_0_FBPT_HEADER_SIZE + total_length ts < 2 ^ 32 ->
  Z.of_nat (length (pre ++ encode_table ts ++ post)) <= maxInt64 ->
  (length ts <= fuel)%nat ->
  FindAllFBPTRecords fuel (Ok (mkFile (pre ++ encode_table ts ++ post) 0))
    (Z.of_nat (length pre))
  = Some (Nat.min maxNumberOfFBPTPerfRecords (length (measurements ts)),
          take maxNumberOfFBPTPerfRecords
            (measurements ts
               ++ replicate (maxNumberOfFBPTPerfRecords - length (measurements ts))
                    zero_MEASUREMENT_RECORD),
          None).
Proof.
  intros Hwf Htl Hmax Hfuel.
  destruct (scan_encoded_table ts pre post 0 fuel Hwf Htl Hmax Hfuel) as [Hv Hs].
  unfold FindAllFBPTRecords. rewrite Hv, Hs.
  destruct (run_table_records ts
              (initial_state (mkFile (pre ++ encode_table ts ++ post)
                                (Z.of_nat (length pre) + 8)))) as [Ei Er].
  - cbn. lia.
  - cbn [initial_state ls_measurementRecords]. apply length_replicate.
  - rewrite Ei, Er. cbn [initial_state ls_index ls_measurementRecords].
    rewrite take_0, drop_replicate. reflexivity.
Qed.

(** ** The bytes consumed and the errors, over any reader *)

Section ReaderBounds.
Context {S : Type} `{ReadSeeker S}.

(** The length of a record header is a [uint8]. *)
Lemma ReadFPDTRecordHeader_length (f f1 : S) (Type_ Length Revision : Z) :
  ReadFPDTRecordHeader f = (f1, Ok (Type_, Length, Revision)) -> 0 <= Length < 256.
Proof.
  unfold ReadFPDTRecordHeader. intros E.
  apply bind_inv_Ok in E as (fa & ty & _ & E).
  apply bind_inv_Ok in E as (fb & len & _ & E).
  apply bind_inv_Ok in E as (fc & rev & _ & E).
  injection E as _ _ <- _.
  pose proof (le_uint_bound (take 1 len)) as Hb.
  assert (Hl : (length (take 1 len) <= 1)%nat) by (rewrite length_take; lia).
  split; [lia|]. eapply Z.lt_le_trans; [apply Hb|].
  change 256 with (2 ^ 8). apply Z.pow_le_mono_r; lia.
Qed.

(** An iteration that falls through has added the declared length of a
    record, a [uint8], to the bytes consumed. *)
Lemma loop_body_tableBytesRead (st st' : @LoopState S) :
  loop_body st = Continue st' ->
  exists Length, 0 <= Length < 256
                 /\ ls_tableBytesRead st' = wrap 32 (ls_tableBytesRead st + Length).
Proof.
  unfold loop_body.
  destruct (ReadFPDTRecordHeader (ls_f st)) as [f1 [[[ty len] rev]|e]] eqn:Eh; [|discriminate].
  apply ReadFPDTRecordHeader_length in Eh.
  destruct (ty =? FPDT_DYNAMIC_STRING_EVENT_RECORD_IDENTIFIER).
  - destruct (readFirmwarePerformanceDataTableDynamicRecord len f1) as [f2 [r|e]];
      [|discriminate].
    intros [= <-]. exists len. done.
  - destruct (Seek _ SeekCurrent f1) as [f2 [x|e]]; [|discriminate].
    intros [= <-]. exists len. done.
Qed.

Lemma scan_loop_tableBytesRead (fuel : nat) (tablelength : Z) :
  forall (st st' : @LoopState S),
    0 <= ls_tableBytesRead st
         < wrap 32 (tablelength - EFI_ACPI_5_0_FBPT_HEADER_SIZE) + 255 ->
    scan_loop fuel tablelength st = Some (Finished st') ->
    0 <= ls_tableBytesRead st'
         < wrap 32 (tablelength - EFI_ACPI_5_0_FBPT_HEADER_SIZE) + 255.
Proof.
  induction fuel as [|fuel IH]; intros st st' Hb; cbn [scan_loop];
    destruct (loop_cond tablelength st) eqn:Hc; try discriminate;
    try (intros [= <-]; exact Hb).
  destruct (loop_body st) as [st1|st1 e] eqn:Hbody; [|discriminate].
  apply IH.
  apply loop_body_tableBytesRead in Hbody as (len & Hlen & ->).
  unfold loop_cond in Hc. apply andb_true_iff in Hc as [Hlt _]. apply Z.ltb_lt in Hlt.
  pose proof (wrap_range 32 (ls_tableBytesRead st + len) ltac:(lia)) as Hw.
  split; [lia|]. unfold wrap in *.
  pose proof (Z.mod_le (ls_tableBytesRead st + len) (2 ^ 32) ltac:(lia) ltac:(lia)). lia.
Qed.

(** *** Where the errors come from *)

Lemma fails_with_ret {A} (P : error -> Prop) (a : A) : fails_with P (@ret S A a).
Proof. intros s s' e [=]. Qed.

Lemma fails_with_bind {A B} (P : error -> Prop) (m : IO S A) (k : A -> IO S B) :
  fails_with P m -> (forall a, fails_with P (k a)) -> fails_with P (bind m k).
Proof.
  intros Hm Hk s s' e. unfold bind. destruct (m s) as [s1 [a|e1]] eqn:E.
  - apply Hk.
  - intros [= <- <-]. exact (Hm _ _ _ E).
Qed.

Lemma fails_with_ReadFull (n : nat) : fails_with source_error (ReadFull n).
Proof. intros s s' e E. left. eauto. Qed.

Lemma fails_with_Seek (off : Z) (whence : Whence) :
  fails_with source_error (Seek off whence).
Proof. intros s s' e E. right. eauto. Qed.

Lemma fails_with_ReadFPDTRecordHeader : fails_with source_error ReadFPDTRecordHeader.
Proof.
  unfold ReadFPDTRecordHeader.
  repeat (apply fails_with_bind; [apply fails_with_ReadFull | intros ?]).
  apply fails_with_ret.
Qed.

Lemma fails_with_readDynamicRecord (recordLength : Z) :
  fails_with source_error (readFirmwarePerformanceDataTableDynamicRecord recordLength).
Proof.
  unfold readFirmwarePerformanceDataTableDynamicRecord.
  repeat (apply fails_with_bind; [apply fails_with_ReadFull | intros ?]).
  apply fails_with_ret.
Qed.

Lemma loop_body_error (st st' : @LoopState S) (err : error) :
  loop_body st = Return st' err -> source_error err.
Proof.
  unfold loop_body.
  destruct (ReadFPDTRecordHeader (ls_f st)) as [f1 [[[ty len] rev]|e]] eqn:Eh.
  - destruct (ty =? FPDT_DYNAMIC_STRING_EVENT_RECORD_IDENTIFIER).
    + destruct (readFirmwarePerformanceDataTableDynamicRecord len f1) as [f2 [r|e]] eqn:Ed;
        [discriminate|].
      intros [= _ <-]. exact (fails_with_readDynamicRecord _ _ _ _ Ed).
    + destruct (Seek _ SeekCurrent f1) as [f2 [x|e]] eqn:Es; [discriminate|].
      intros [= _ <-]. exact (fails_with_Seek _ _ _ _ _ Es).
  - intros [= _ <-]. exact (fails_with_ReadFPDTRecordHeader _ _ _ Eh).
Qed.

Lemma scan_loop_error (fuel : nat) (tablelength : Z) :
  forall (st st' : @LoopState S) (err : error),
    scan_loop fuel tablelength st = Some (Aborted st' err) -> source_error err.
Proof.
  induction fuel as [|fuel IH]; intros st st' err; cbn [scan_loop];
    destruct (loop_cond tablelength st); try discriminate.
  destruct (loop_body st) as [st1|st1 e] eqn:Hb.
  - apply IH.
  - intros [= _ <-]. exact (loop_body_error _ _ _ Hb).
Qed.

End ReaderBounds.

(** ** The end of the loop *)

Section Termination.
Context {S : Type} `{ReadSeeker S}.
Variable remaining : S -> nat.
Hypothesis Hfinite : finite_source remaining.

Lemma ReadFull_remaining (n : nat) (s s' : S) (b : list byte) :
  ReadFull n s = (s', Ok b) -> (remaining s' + n <= remaining s)%nat.
Proof. apply Hfinite. Qed.

Lemma ReadFPDTRecordHeader_remaining (f f1 : S) (hdr : Z * Z * Z) :
  ReadFPDTRecordHeader f = (f1, Ok hdr) -> (remaining f1 + 4 <= remaining f)%nat.
Proof.
  unfold ReadFPDTRecordHeader. intros E.
  apply bind_inv_Ok in E as (fa & ty & Ea & E).
  apply bind_inv_Ok in E as (fb & len & Eb & E).
  apply bind_inv_Ok in E as (fc & rev & Ec & E).
  injection E as <- _.
  apply ReadFull_remaining in Ea, Eb, Ec. lia.
Qed.

Lemma readDynamicRecord_remaining (recordLength : Z) (f f1 : S) (r : MEASUREMENT_RECORD) :
  readFirmwarePerformanceDataTableDynamicRecord recordLength f = (f1, Ok r) ->
  (remaining f1 + 30 <= remaining f)%nat.
Proof.
  unfold readFirmwarePerformanceDataTableDynamicRecord. intros E.
  apply bind_inv_Ok in E as (fa & a & Ea & E).
  apply bind_inv_Ok in E as (fb & b & Eb & E).
  apply bind_inv_Ok in E as (fc & c & Ec & E).
  apply bind_inv_Ok in E as (fd & d & Ed & E).
  apply bind_inv_Ok in E as (fe & e & Ee & E).
  injection E as <- _.
  apply ReadFull_remaining in Ea, Eb, Ec, Ed, Ee. lia.
Qed.

(** An iteration that falls through has used up 4 bytes of the source at
    least. *)
Lemma loop_body_remaining (st st' : @LoopState S) :
  loop_body st = Continue st' -> (remaining (ls_f st') + 4 <= remaining (ls_f st))%nat.
Proof.
  unfold loop_body.
  destruct (ReadFPDTRecordHeader (ls_f st)) as [f1 [[[ty len] rev]|e]] eqn:Eh; [|discriminate].
  apply ReadFPDTRecordHeader_remaining in Eh.
  destruct (ty =? FPDT_DYNAMIC_STRING_EVENT_RECORD_IDENTIFIER).
  - destruct (readFirmwarePerformanceDataTableDynamicRecord len f1) as [f2 [r|e]] eqn:Ed;
      [|discriminate].
    apply readDynamicRecord_remaining in Ed.
    intros [= <-]. cbn [ls_f]. lia.
  - destruct (Seek _ SeekCurrent f1) as [f2 [x|e]] eqn:Es; [|discriminate].
    apply Hfinite in Es; [|apply (wrap_range 8); lia].
    intros [= <-]. cbn [ls_f]. lia.
Qed.

(** On a finite source the loop ends: a quarter of what is left bounds the
    number of iterations, whatever the bytes are. *)
Lemma scan_loop_ends (fuel : nat) (tablelength : Z) :
  forall st : @LoopState S,
    (remaining (ls_f st) < 4 * fuel)%nat ->
    exists out, scan_loop fuel tablelength st = Some out.
Proof.
  induction fuel as [|fuel IH]; intros st Hm; [lia|]. cbn [scan_loop].
  destruct (loop_cond tablelength st); [|by eexists].
  destruct (loop_body st) as [st1|st1 err] eqn:Hb; [|by eexists].
  apply IH. apply loop_body_remaining in Hb. lia.
Qed.

End Termination.

Section LoopEnds.
Context {S : Type} `{ReadSeeker S}.

(** The loop test, read as the two bounds of the specification. *)
Lemma loop_cond_false (tablelength : Z) (st : @LoopState S) :
  loop_cond tablelength st = false
  <-> wrap 32 (tablelength - EFI_ACPI_5_0_FBPT_HEADER_SIZE) <= ls_tableBytesRead st
      \/ (maxNumberOfFBPTPerfRecords <= ls_index st)%nat.
Proof.
  unfold loop_cond. rewrite andb_false_iff, Z.ltb_ge, Nat.ltb_ge. reflexivity.
Qed.

(** The loop ends normally in the first state in which its test fails. *)
Lemma scan_loop_Finished (fuel : nat) (tablelength : Z) :
  forall st st' : @LoopState S,
    scan_loop fuel tablelength st = Some (Finished st') -> loop_cond tablelength st' = false.
Proof.
  induction fuel as [|fuel IH]; intros st st'; cbn [scan_loop];
    destruct (loop_cond tablelength st) eqn:Hc; try discriminate;
    try (intros [= <-]; exact Hc).
  destruct (loop_body st) as [st1|st1 e]; [apply IH|discriminate].
Qed.

End LoopEnds.

(** The unread part of a device is a measure of what is left of it. *)
Lemma File_finite_source :
  finite_source (fun f : File => Z.to_nat (file_size f - offset f)).
Proof.
  split.
  - intros n f f' b. cbn [ReadFull File_ReadSeeker]. unfold File_ReadFull, file_size.
    destruct (Nat.eqb_spec n 0) as [->|Hn]; [intros [= <- _]; lia|].
    destruct (Z.leb_spec (Z.of_nat (length (contents f))) (offset f)); [discriminate|].
    destruct (Z.ltb_spec (Z.of_nat (length (contents f))) (offset f + Z.of_nat n));
      [discriminate|].
    intros [= <- _]. cbn [contents offset]. lia.
  - intros off f f' x Hoff. cbn [Seek File_ReadSeeker]. unfold File_Seek, file_size.
    destruct (_ || _); [discriminate|].
    intros [= <- _]. cbn [contents offset]. lia.
Qed.

(** *** The stream *)

Lemma stream_byte_zero (pos : Z) : 8 <= pos -> stream_byte pos = x00.
Proof.
  intros Hp. unfold stream_byte. apply nth_overflow.
  rewrite length_app, length_le_bytes. cbn. lia.
Qed.

(** Past the table header every iteration meets a record of type 0 that
    declares the length 0: it moves 256 bytes on and leaves the bytes
    consumed and the index at 0. *)
Lemma stream_loop_body (pos : Z) (recs : list MEASUREMENT_RECORD) :
  8 <= pos ->
  loop_body (mkLoop (mkStream pos) recs 0 0)
  = Continue (mkLoop (mkStream (pos + 256)) recs 0 0).
Proof.
  intros Hp. unfold loop_body, ReadFPDTRecordHeader, bind, ret.
  cbn [ReadFull Seek Stream_ReadSeeker Stream_ReadFull Stream_Seek position ls_f
       map seq Z.of_nat].
  rewrite !stream_byte_zero by lia.
  cbn [ls_measurementRecords ls_index ls_tableBytesRead].
  change (LittleEndian_Uint16 [x00; x00]) with 0.
  change (le_uint (take 1 [x00])) with 0.
  change (0 =? FPDT_DYNAMIC_STRING_EVENT_RECORD_IDENTIFIER) with false. cbv iota.
  change (wrap 8 (0 - EFI_ACPI_5_0_FPDT_PERFORMANCE_RECORD_HEADER_SIZE)) with 252.
  change (wrap 32 (0 + 0)) with 0.
  unfold Stream_Seek. cbn [position].
  destruct (Z.ltb_spec (pos + Z.of_nat 2 + Z.of_nat 1 + Z.of_nat 1 + 252) 0); [lia|].
  do 3 f_equal. lia.
Qed.

Lemma stream_scan_loop (fuel : nat) :
  forall (pos : Z) (recs : list MEASUREMENT_RECORD),
    8 <= pos -> scan_loop fuel 100 (mkLoop (mkStream pos) recs 0 0) = None.
Proof.
  induction fuel as [|fuel IH]; intros pos recs Hp; [reflexivity|].
  cbn [scan_loop].
  change (loop_cond 100 (mkLoop (mkStream pos) recs 0 0)) with true. cbv iota.
  rewrite (stream_loop_body pos recs Hp). apply IH. lia.
Qed.

(** * Properties of the scan *)

(** ** C1: a failure after k records *)

(** C1, as stated, fails: on the device cut inside its second record the
    loop decodes one record and then runs into the end of the device;
    [FindAllFBPTRecords] returns the count 1 and the error with a nil slice,
    which does not begin with the decoded record. *)
Lemma partial_results_dropped :
  ~ keeps_partial_results
      (decoded_records 3 86 (initial_state (mkFile truncated_device 8)))
      (FindAllFBPTRecords 3 (Ok (mkFile truncated_device 0)) 0).
Proof. vm_compute. discriminate. Qed.

Example truncated_device_scan :
  decoded_records 3 86 (initial_state (mkFile truncated_device 8)) = [sample_record]
  /\ FindAllFBPTRecords 3 (Ok (mkFile truncated_device 0)) 0
     = Some (1%nat, [], Some ErrUnexpectedEOF).
Proof. split; vm_compute; reflexivity. Qed.

(** C1, amended: for every byte source and base address, when an iteration
    of the loop returns an error after k dynamic-string records have been
    decoded, [FindAllFBPTRecords] returns that error together with the count
    k and a nil slice; the k records are in the local slice that is left
    behind, not in the result. *)
Theorem failed_scan_returns_count_only {S : Type} `{ReadSeeker S}
    (fuel : nat) (f f1 : S) (FBPTAddr tablelength : Z) (st : @LoopState S) (err : error) :
  verifyFBPTSignature FBPTAddr f = (f1, Ok tablelength) ->
  scan_loop fuel tablelength (initial_state f1) = Some (Aborted st err) ->
  FindAllFBPTRecords fuel (Ok f) FBPTAddr
  = Some (length (decoded_records fuel tablelength (initial_state f1)), [], Some err)
  /\ take (length (decoded_records fuel tablelength (initial_state f1)))
       (ls_measurementRecords st)
     = decoded_records fuel tablelength (initial_state f1).
Proof.
  intros Hv Hs.
  destruct (scan_loop_invariant fuel tablelength (initial_state f1) (Aborted st err))
    as (E1 & _ & _ & E4 & _).
  - apply length_replicate.
  - cbn. lia.
  - apply zero_from_initial.
  - exact Hs.
  - cbn [outcome_state initial_state ls_index ls_measurementRecords] in E1, E4.
    rewrite take_0 in E4. cbn [app] in E4. rewrite Nat.add_0_l in E1.
    split.
    + unfold FindAllFBPTRecords. rewrite Hv, Hs, E1. reflexivity.
    + rewrite <- E1. exact E4.
Qed.

Lemma failed_scan_returns_count_only_witness :
  FindAllFBPTRecords 3 (Ok (mkFile truncated_device 0)) 0
  = Some (length (decoded_records 3 86 (initial_state (mkFile truncated_device 8))),
          [], Some ErrUnexpectedEOF).
Proof.
  eapply proj1.
  eapply (failed_scan_returns_count_only 3 (mkFile truncated_device 0)
            (mkFile truncated_device 8) 0 86);
    vm_compute; reflexivity.
Defined.

(** ** C2: the scan of a well-formed table *)

(** C2, as stated, fails: a well-formed table of 2001 dynamic-string
    records is not scanned to its end, the loop stops at 2000 records. *)
Lemma table_2001_not_scanned_whole : ~ scans_whole_table table_2001.
Proof.
  assert (Hwf : Forall well_formed_record table_2001) by compute_done.
  assert (Htl : EFI_ACPI_5_0_FBPT_HEADER_SIZE + total_length table_2001 < 2 ^ 32)
    by (vm_compute; reflexivity).
  assert (Hmax : Z.of_nat (length ([] ++ encode_table table_2001 ++ [])) <= maxInt64)
    by (vm_compute; discriminate).
  assert (Hlen : length table_2001 = 2001%nat) by apply length_replicate.
  assert (Hn : length (measurements table_2001) = 2001%nat) by (vm_compute; reflexivity).
  set (ts := table_2001) in *. clearbody ts.
  intros (fuel & f1 & tablelength & st & Hv & Hs & Hi & _).
  destruct (scan_encoded_table ts [] [] 0 (Nat.max fuel 2001) Hwf Htl Hmax ltac:(lia))
    as [Hv' Hs'].
  cbn [app length Z.of_nat] in Hv', Hs'. rewrite app_nil_r in Hv', Hs'.
  change (Z.of_nat 0) with 0 in Hv', Hs'.
  rewrite Hv in Hv'. injection Hv' as -> ->.
  apply (scan_loop_fuel_mono fuel (Nat.max fuel 2001)) in Hs; [|lia].
  rewrite Hs in Hs'. injection Hs' as ->.
  destruct (run_table_records ts (initial_state (mkFile (encode_table ts) (0 + 8))))
    as [Ei _].
  - cbn. lia.
  - apply length_replicate.
  - rewrite Ei, Hn in Hi. cbn [initial_state ls_index] in Hi.
    unfold maxNumberOfFBPTPerfRecords in Hi. lia.
Qed.

(** C2, amended: for every well-formed table with N <= 2000 dynamic-string
    records among records of other types, placed anywhere in the device, the
    scan returns the count N and a slice of 2000 entries whose first N
    entries are the measurement records in table order (the others are
    zero-valued); when moreover every record is met before the 2000th
    record is stored (so whenever N < 2000), the bytes consumed are
    tableLength - 8 and the cursor ends behind the table. *)
Theorem scan_well_formed_table (ts : list TableRecord) (pre post : list byte) (fuel : nat) :
  Forall well_formed_record ts ->
  EFI_ACPI_5_0_FBPT_HEADER_SIZE + total_length ts < 2 ^ 32 ->
  Z.of_nat (length (pre ++ encode_table ts ++ post)) <= maxInt64 ->
  (length ts <= fuel)%nat ->
  (length (measurements ts) <= maxNumberOfFBPTPerfRecords)%nat ->
  FindAllFBPTRecords fuel (Ok (mkFile (pre ++ encode_table ts ++ post) 0))
    (Z.of_nat (length pre))
  = Some (length (measurements ts),
          measurements ts
            ++ replicate (maxNumberOfFBPTPerfRecords - length (measurements ts))
                 zero_MEASUREMENT_RECORD,
          None)
  /\ (all_reached ts 0 = true ->
      exists f1 st,
        verifyFBPTSignature (Z.of_nat (length pre))
          (mkFile (pre ++ encode_table ts ++ post) 0)
        = (f1, Ok (EFI_ACPI_5_0_FBPT_HEADER_SIZE + total_length ts))
        /\ scan_loop fuel (EFI_ACPI_5_0_FBPT_HEADER_SIZE + total_length ts) (initial_state f1)
           = Some (Finished st)
        /\ ls_tableBytesRead st = total_length ts
        /\ offset (ls_f st)
           = Z.of_nat (length pre) + (EFI_ACPI_5_0_FBPT_HEADER_SIZE + total_length ts)).
Proof.
  intros Hwf Htl Hmax Hfuel Hn. split.
  - rewrite (FindAllFBPTRecords_encoded_table ts pre post fuel Hwf Htl Hmax Hfuel).
    rewrite Nat.min_r by exact Hn.
    rewrite take_ge; [reflexivity|].
    rewrite length_app, length_replicate. lia.
  - intros Hr.
    destruct (scan_encoded_table ts pre post 0 fuel Hwf Htl Hmax Hfuel) as [Hv Hs].
    eexists _, _. split; [exact Hv|]. split; [exact Hs|].
    destruct (run_table_all_reached ts
                (initial_state (mkFile (pre ++ encode_table ts ++ post)
                                  (Z.of_nat (length pre) + 8)))) as (Eb & Eo & _).
    + exact Hr.
    + rewrite Eb, Eo. cbn [initial_state ls_tableBytesRead ls_f offset].
      unfold EFI_ACPI_5_0_FBPT_HEADER_SIZE. lia.
Qed.

Lemma scan_well_formed_table_witness :
  FindAllFBPTRecords 3
    (Ok (mkFile (list_byte_of_string "ACPI" ++ encode_table small_table ++ [x00; x00]) 0))
    (Z.of_nat (length (list_byte_of_string "ACPI")))
  = Some (length (measurements small_table),
          measurements small_table
            ++ replicate (maxNumberOfFBPTPerfRecords - length (measurements small_table))
                 zero_MEASUREMENT_RECORD,
          None).
Proof.
  apply (scan_well_formed_table small_table (list_byte_of_string "ACPI") [x00; x00] 3).
  - compute_done.
  - vm_compute. reflexivity.
  - vm_compute. discriminate.
  - vm_compute. lia.
  - vm_compute. lia.
Defined.

(** ** C3: records that declare less than their overhead *)

(** C3, as stated, fails: a record of type 0x1000 that declares the length
    3, and a dynamic-string record that declares the length 4, are both
    taken as they come; neither scan returns an error. *)
Lemma short_records_not_rejected :
  ReadFPDTRecordHeader (mkFile short_record_device 8)
  = (mkFile short_record_device 12, Ok (0x1000, 3, 1))
  /\ ~ scan_stops_with_error short_record_device
  /\ ReadFPDTRecordHeader (mkFile short_dynamic_device 8)
     = (mkFile short_dynamic_device 12, Ok (FPDT_DYNAMIC_STRING_EVENT_RECORD_IDENTIFIER, 4, 1))
  /\ ~ scan_stops_with_error short_dynamic_device.
Proof.
  split; [vm_compute; reflexivity|]. split; [|split; [vm_compute; reflexivity|]].
  - intros Hstop.
    destruct (FindAllFBPTRecords 1 (Ok (mkFile short_record_device 0)) 0)
      as [[[count recs] err]|] eqn:E; [|vm_compute in E; discriminate].
    apply (Hstop 1%nat count recs err E).
    vm_compute in E. congruence.
  - intros Hstop.
    destruct (FindAllFBPTRecords 1 (Ok (mkFile short_dynamic_device 0)) 0)
      as [[[count recs] err]|] eqn:E; [|vm_compute in E; discriminate].
    apply (Hstop 1%nat count recs err E).
    vm_compute in E. congruence.
Qed.

(** On a device, for every record header that lies inside it, whatever
    length the header declares: an iteration over a record of another type
    goes on to the next iteration with the index unchanged, and an
    iteration returns an error only for a dynamic-string record, and then
    the error is the one of a read that ran into the end of the device. *)
Lemma short_length_on_device (st : @LoopState File) (b0 b1 b2 b3 : byte)
    (rest : list byte) :
  0 <= offset (ls_f st) ->
  file_size (ls_f st) + 255 <= maxInt64 ->
  unread (ls_f st) = b0 :: b1 :: b2 :: b3 :: rest ->
  (le_uint [b0; b1] <> FPDT_DYNAMIC_STRING_EVENT_RECORD_IDENTIFIER ->
   exists st', loop_body st = Continue st'
               /\ ls_index st' = ls_index st
               /\ ls_measurementRecords st' = ls_measurementRecords st
               /\ ls_tableBytesRead st' = wrap 32 (ls_tableBytesRead st + byte_Z b2))
  /\ (forall st' err, loop_body st = Return st' err ->
        le_uint [b0; b1] = FPDT_DYNAMIC_STRING_EVENT_RECORD_IDENTIFIER
        /\ (err = EOF \/ err = ErrUnexpectedEOF)).
Proof.
  intros Ho Hmax Hu.
  assert (Hend : offset (ls_f st) + 4 <= file_size (ls_f st)).
  { apply (unread_bound _ [b0; b1; b2; b3] rest Ho Hu). done. }
  pose proof (wrap_range 8 (byte_Z b2 - EFI_ACPI_5_0_FPDT_PERFORMANCE_RECORD_HEADER_SIZE)
                ltac:(lia)) as Hw.
  change (2 ^ 8) with 256 in Hw.
  assert (Hseek : Seek (wrap 8 (byte_Z b2 - EFI_ACPI_5_0_FPDT_PERFORMANCE_RECORD_HEADER_SIZE))
                    SeekCurrent (advance (ls_f st) 4)
                  = (advance (advance (ls_f st) 4)
                       (wrap 8 (byte_Z b2 - EFI_ACPI_5_0_FPDT_PERFORMANCE_RECORD_HEADER_SIZE)),
                     Ok (offset (advance (ls_f st) 4)
                         + wrap 8 (byte_Z b2
                                   - EFI_ACPI_5_0_FPDT_PERFORMANCE_RECORD_HEADER_SIZE)))).
  { apply File_Seek_current. rewrite offset_advance. lia. }
  unfold loop_body. rewrite (ReadFPDTRecordHeader_File _ _ _ _ _ _ Ho Hu).
  destruct (Z.eqb_spec (le_uint [b0; b1]) FPDT_DYNAMIC_STRING_EVENT_RECORD_IDENTIFIER)
    as [Hty|Hty].
  - split; [done|]. intros st' err.
    destruct (readFirmwarePerformanceDataTableDynamicRecord (byte_Z b2) (advance (ls_f st) 4))
      as [f2 [r|e]] eqn:Ed; [discriminate|].
    intros [= _ <-]. split; [exact Hty|].
    exact (short_read_errors_readDynamicRecord _ _ _ _ Ed).
  - rewrite Hseek. split; [|discriminate].
    intros _. eexists. split; [reflexivity|]. done.
Qed.

(** C3, amended: a record whose declared length is smaller than its
    overhead is not rejected and the scan has no structural error.  For
    every byte source and every record header that can be read, whatever
    length it declares: an error that the iteration returns is one that a
    read or a seek of the byte source returned; when the seek over the rest
    of a record of another type succeeds, or the five reads of the body of
    a dynamic-string record, the iteration goes on to the next one, the
    amount skipped being (length - 4) and the description (length - 34)
    bytes long, both wrapped around as a [uint8]. *)
Theorem short_length_is_not_an_error {S : Type} `{ReadSeeker S} (st : LoopState)
    (f1 : S) (Type_ Length Revision : Z) :
  ReadFPDTRecordHeader (ls_f st) = (f1, Ok (Type_, Length, Revision)) ->
  (forall st' err, loop_body st = Return st' err -> source_error err)
  /\ (Type_ <> FPDT_DYNAMIC_STRING_EVENT_RECORD_IDENTIFIER ->
      forall (f2 : S) (x : Z),
        Seek (wrap 8 (Length - 4)) SeekCurrent f1 = (f2, Ok x) ->
        loop_body st
        = Continue (mkLoop f2 (ls_measurementRecords st) (ls_index st)
                      (wrap 32 (ls_tableBytesRead st + Length))))
  /\ (Type_ = FPDT_DYNAMIC_STRING_EVENT_RECORD_IDENTIFIER ->
      forall (f2 f3 f4 f5 f6 : S) (hookType processorIdentifier timestamp guid
                                   description : list byte),
        ReadFull 2 f1 = (f2, Ok hookType) ->
        ReadFull 4 f2 = (f3, Ok processorIdentifier) ->
        ReadFull 8 f3 = (f4, Ok timestamp) ->
        ReadFull 16 f4 = (f5, Ok guid) ->
        ReadFull (Z.to_nat (wrap 8 (Length - 34))) f5 = (f6, Ok description) ->
        exists measurementRecord,
          Description measurementRecord = string_of_list_byte description
          /\ loop_body st
             = Continue (mkLoop f6
                           (<[ls_index st := measurementRecord]> (ls_measurementRecords st))
                           (Datatypes.S (ls_index st))
                           (wrap 32 (ls_tableBytesRead st + Length)))).
Proof.
  intros Hh. split; [intros st' err; apply loop_body_error|].
  split.
  - intros Hty f2 x Hs. unfold loop_body. rewrite Hh.
    destruct (Z.eqb_spec Type_ FPDT_DYNAMIC_STRING_EVENT_RECORD_IDENTIFIER) as [E|_];
      [contradiction|].
    change EFI_ACPI_5_0_FPDT_PERFORMANCE_RECORD_HEADER_SIZE with 4.
    rewrite Hs. reflexivity.
  - intros -> f2 f3 f4 f5 f6 hookType processorIdentifier timestamp guid description
      E2 E4 E8 E16 Ed.
    eexists. split; [|unfold loop_body; rewrite Hh; rewrite Z.eqb_refl].
    2:{ unfold readFirmwarePerformanceDataTableDynamicRecord, bind, ret.
        rewrite E2, E4, E8, E16, Ed. reflexivity. }
    reflexivity.
Qed.

Lemma short_length_is_not_an_error_witness :
  loop_body (initial_state (mkFile short_record_device 8))
  = Continue (mkLoop (mkFile short_record_device 267)
                (replicate maxNumberOfFBPTPerfRecords zero_MEASUREMENT_RECORD) 0 3).
Proof.
  destruct (short_length_is_not_an_error (initial_state (mkFile short_record_device 8))
              (mkFile short_record_device 12) 0x1000 3 1) as (_ & Hskip & _).
  - vm_compute. reflexivity.
  - apply (Hskip ltac:(discriminate) (mkFile short_record_device 267) 267).
    vm_compute. reflexivity.
Defined.

(** ** C4: the cap *)

(** C4: for every well-formed table with 2001 or more dynamic-string
    records the scan returns the count 2000, the first 2000 measurement
    records of the table, and no error. *)
Theorem scan_caps_at_2000 (ts : list TableRecord) (pre post : list byte) (fuel : nat) :
  Forall well_formed_record ts ->
  EFI_ACPI_5_0_FBPT_HEADER_SIZE + total_length ts < 2 ^ 32 ->
  Z.of_nat (length (pre ++ encode_table ts ++ post)) <= maxInt64 ->
  (length ts <= fuel)%nat ->
  (2001 <= length (measurements ts))%nat ->
  FindAllFBPTRecords fuel (Ok (mkFile (pre ++ encode_table ts ++ post) 0))
    (Z.of_nat (length pre))
  = Some (2000%nat, take 2000 (measurements ts), None).
Proof.
  intros Hwf Htl Hmax Hfuel Hn.
  rewrite (FindAllFBPTRecords_encoded_table ts pre post fuel Hwf Htl Hmax Hfuel).
  unfold maxNumberOfFBPTPerfRecords.
  rewrite Nat.min_l by lia. rewrite take_app_le by lia. reflexivity.
Qed.

Lemma scan_caps_at_2000_witness :
  FindAllFBPTRecords 2001
    (Ok (mkFile (list_byte_of_string "ACPI" ++ encode_table table_2001 ++ []) 0))
    (Z.of_nat (length (list_byte_of_string "ACPI")))
  = Some (2000%nat, take 2000 (measurements table_2001), None).
Proof.
  apply (scan_caps_at_2000 table_2001 (list_byte_of_string "ACPI") [] 2001).
  - compute_done.
  - vm_compute. reflexivity.
  - vm_compute. discriminate.
  - vm_compute. lia.
  - vm_compute. lia.
Defined.

(** ** C5: tables that declare 8 bytes or less *)

(** A table that declares exactly 8 bytes: no iteration, 2000 zero-valued
    entries, the count 0 and no error. *)
Lemma scan_empty_table {S : Type} `{ReadSeeker S} (fuel : nat) (f f1 : S) (FBPTAddr : Z) :
  verifyFBPTSignature FBPTAddr f = (f1, Ok EFI_ACPI_5_0_FBPT_HEADER_SIZE) ->
  FindAllFBPTRecords fuel (Ok f) FBPTAddr
  = Some (0%nat, replicate maxNumberOfFBPTPerfRecords zero_MEASUREMENT_RECORD, None).
Proof.
  intros Hv. unfold FindAllFBPTRecords. rewrite Hv.
  destruct fuel; reflexivity.
Qed.

(** A table that declares less than 8 bytes: the bound of the loop wraps
    around and the loop is entered. *)
Lemma loop_entered_below_header_size {S : Type} `{ReadSeeker S} (f : S) (tablelength : Z) :
  0 <= tablelength < EFI_ACPI_5_0_FBPT_HEADER_SIZE ->
  wrap 32 (tablelength - EFI_ACPI_5_0_FBPT_HEADER_SIZE) = 2 ^ 32 - 8 + tablelength
  /\ loop_cond tablelength (initial_state f) = true.
Proof.
  unfold EFI_ACPI_5_0_FBPT_HEADER_SIZE. intros Ht.
  assert (Hw : wrap 32 (tablelength - 8) = 2 ^ 32 - 8 + tablelength).
  { unfold wrap. symmetry. apply (Z.mod_unique _ _ (-1)); lia. }
  split; [exact Hw|].
  unfold loop_cond, EFI_ACPI_5_0_FBPT_HEADER_SIZE. rewrite Hw.
  apply andb_true_iff. split; [apply Z.ltb_lt; cbn; lia | reflexivity].
Qed.

(** C5, at the failing input: the table header declares the length 0 and a
    dynamic-string record follows it in the device.  The loop is entered,
    the record is decoded, and the scan returns the count 1 and [io.EOF]
    instead of an empty result and no error. *)
Theorem short_table_is_scanned :
  verifyFBPTSignature 0 (mkFile short_table_device 0) = (mkFile short_table_device 8, Ok 0)
  /\ loop_cond 0 (initial_state (mkFile short_table_device 8)) = true
  /\ decoded_records 2 0 (initial_state (mkFile short_table_device 8)) = [sample_record]
  /\ FindAllFBPTRecords 2 (Ok (mkFile short_table_device 0)) 0 = Some (1%nat, [], Some EOF).
Proof. repeat split; vm_compute; reflexivity. Qed.

(** ** C6: termination *)

(** On a device, for every base address and whatever the bytes of the
    device are, a number of iterations above the size of the device is
    enough for the scan to return; the loop then has ended with an error,
    or normally with the bytes consumed at or above (tableLength - 8), as a
    [uint32] and so as an integer too, or with 2000 records stored. *)
Lemma device_scan_ends (f : File) (FBPTAddr : Z) (fuel : nat) :
  (length (contents f) < fuel)%nat ->
  (exists count recs err, FindAllFBPTRecords fuel (Ok f) FBPTAddr = Some (count, recs, err))
  /\ (forall f1 tablelength,
        verifyFBPTSignature FBPTAddr f = (f1, Ok tablelength) ->
        exists out,
          scan_loop fuel tablelength (initial_state f1) = Some out
          /\ match out with
             | Finished st =>
                 (wrap 32 (tablelength - EFI_ACPI_5_0_FBPT_HEADER_SIZE) <= ls_tableBytesRead st
                  /\ tablelength - EFI_ACPI_5_0_FBPT_HEADER_SIZE <= ls_tableBytesRead st)
                 \/ (maxNumberOfFBPTPerfRecords <= ls_index st)%nat
             | Aborted _ _ => True
             end).
Proof.
  intros Hfuel.
  assert (Hloop : forall f1 tablelength,
             verifyFBPTSignature FBPTAddr f = (f1, Ok tablelength) ->
             exists out,
               scan_loop fuel tablelength (initial_state f1) = Some out
               /\ match out with
                  | Finished st => loop_cond tablelength st = false
                  | Aborted _ _ => True
                  end).
  { intros f1 tablelength Hv. apply scan_loop_terminates.
    cbn [initial_state ls_f]. unfold file_size.
    rewrite (verifyFBPTSignature_contents _ _ _ _ Hv).
    destruct (Z.le_gt_cases 0 (offset f1)); [lia|].
    (* the signature check leaves a cursor that is not negative *)
    exfalso. unfold verifyFBPTSignature in Hv.
    apply bind_inv_Ok in Hv as (fa & x & Ea & Hv).
    cbn [Seek File_ReadSeeker] in Ea. unfold File_Seek in Ea.
    destruct (Z.ltb_spec (int64_of_uint64 FBPTAddr) 0); [discriminate|].
    destruct (maxInt64 <? int64_of_uint64 FBPTAddr); [discriminate|].
    cbn [orb] in Ea. injection Ea as <- _.
    apply bind_inv_Ok in Hv as (fb & sig & Eb & Hv).
    destruct (forward_ReadFull _ _ _ _ Eb) as [_ Hb]. cbn [offset] in Hb.
    destruct (negb _); [discriminate|].
    apply bind_inv_Ok in Hv as (fc & lenb & Ec & Hv).
    destruct (forward_ReadFull _ _ _ _ Ec) as [_ Hc].
    injection Hv as <- _. lia. }
  split.
  - unfold FindAllFBPTRecords.
    destruct (verifyFBPTSignature FBPTAddr f) as [f1 [tablelength|err]] eqn:Hv; [|eauto].
    destruct (Hloop f1 tablelength eq_refl) as ([st|st err] & -> & _); eauto.
  - intros f1 tablelength Hv.
    destruct (Hloop f1 tablelength Hv) as (out & Hs & Hout).
    exists out. split; [exact Hs|].
    destruct out as [st|st err]; [|exact I].
    unfold loop_cond in Hout. apply andb_false_iff in Hout as [Hb|Hi].
    + left. apply Z.ltb_ge in Hb. split; [exact Hb|].
      pose proof (verifyFBPTSignature_range _ _ _ _ Hv) as Hr.
      unfold wrap, EFI_ACPI_5_0_FBPT_HEADER_SIZE in *.
      destruct (Z.le_gt_cases 8 tablelength).
      * rewrite Z.mod_small in Hb by lia. exact Hb.
      * pose proof (Z.mod_pos_bound (tablelength - 8) (2 ^ 32) ltac:(lia)). lia.
    + right. apply Nat.ltb_ge in Hi. exact Hi.
Qed.

(** C6, as stated, fails: the stream has a table header that passes the
    signature check and declares 100 bytes; the first iteration meets a
    record of type 0 that declares the length 0, moves 256 bytes on and
    leaves the bytes consumed and the index at 0, and so does every
    iteration after it: no number of iterations is enough for the scan to
    return. *)
Lemma stream_scan_never_returns :
  verifyFBPTSignature 0 (mkStream 0) = (mkStream 8, Ok 100)
  /\ loop_body (initial_state (mkStream 8)) = Continue (initial_state (mkStream 264))
  /\ ~ scan_returns (mkStream 0) 0.
Proof.
  assert (Hv : verifyFBPTSignature 0 (mkStream 0) = (mkStream 8, Ok 100))
    by (vm_compute; reflexivity).
  split; [exact Hv|]. split; [apply (stream_loop_body 8); lia|].
  intros (fuel & count & recs & err & Hr).
  unfold FindAllFBPTRecords in Hr. rewrite Hv in Hr.
  unfold initial_state in Hr. rewrite stream_scan_loop in Hr by lia. discriminate.
Qed.

(** C6, amended: for every byte source and every table content, the loop
    ends normally as soon as the bytes consumed are at or above
    (tableLength - 8), as a [uint32], or 2000 records are stored, and only
    then; any other end is an error that a read or a seek of the byte
    source returned.  On a finite byte source the loop ends, whatever the
    bytes are, records that declare the length 0 included: a quarter of
    what is left of the source bounds the number of iterations, and the
    scan returns. *)
Theorem scan_terminates {S : Type} `{ReadSeeker S} :
  (forall (fuel : nat) (tablelength : Z) (st : LoopState),
      wrap 32 (tablelength - EFI_ACPI_5_0_FBPT_HEADER_SIZE) <= ls_tableBytesRead st
      \/ (maxNumberOfFBPTPerfRecords <= ls_index st)%nat ->
      scan_loop fuel tablelength st = Some (Finished st))
  /\ (forall (fuel : nat) (tablelength : Z) (st : LoopState) (out : Outcome),
        scan_loop fuel tablelength st = Some out ->
        match out with
        | Finished st' =>
            wrap 32 (tablelength - EFI_ACPI_5_0_FBPT_HEADER_SIZE) <= ls_tableBytesRead st'
            \/ (maxNumberOfFBPTPerfRecords <= ls_index st')%nat
        | Aborted _ err => source_error err
        end)
  /\ (forall remaining : S -> nat,
        finite_source remaining ->
        (forall (fuel : nat) (tablelength : Z) (st : LoopState),
            (remaining (ls_f st) < 4 * fuel)%nat ->
            exists out, scan_loop fuel tablelength st = Some out)
        /\ (forall (f : S) (FBPTAddr : Z), scan_returns f FBPTAddr)).
Proof.
  split; [|split].
  - intros fuel tablelength st Hb. apply loop_cond_false in Hb.
    destruct fuel; cbn [scan_loop]; rewrite Hb; reflexivity.
  - intros fuel tablelength st [st'|st' err] Hs.
    + apply loop_cond_false. exact (scan_loop_Finished _ _ _ _ Hs).
    + exact (scan_loop_error _ _ _ _ _ Hs).
  - intros remaining Hfin. split.
    + intros fuel tablelength st. apply (scan_loop_ends remaining Hfin).
    + intros f FBPTAddr. unfold scan_returns, FindAllFBPTRecords.
      destruct (verifyFBPTSignature FBPTAddr f) as [f1 [tablelength|e]] eqn:Hv.
      * destruct (scan_loop_ends remaining Hfin (Datatypes.S (remaining f1)) tablelength
                    (initial_state f1)) as [out Hs]; [cbn [initial_state ls_f]; lia|].
        exists (Datatypes.S (remaining f1)). rewrite Hs. destruct out; eauto.
      * exists 0%nat. eauto.
Qed.

Lemma scan_terminates_witness :
  scan_loop 0 100 (mkLoop (mkFile zero_length_device 100) [sample_record] 1 92)
  = Some (Finished (mkLoop (mkFile zero_length_device 100) [sample_record] 1 92))
  /\ scan_returns (mkFile zero_length_device 0) 0.
Proof.
  destruct (@scan_terminates File _) as (Hend & _ & Hfin).
  split.
  - apply Hend. left. vm_compute. discriminate.
  - destruct (Hfin _ File_finite_source) as [_ Hret]. apply Hret.
Defined.

Example zero_length_device_scan :
  FindAllFBPTRecords 609 (Ok (mkFile zero_length_device 0)) 0 = Some (0%nat, [], Some EOF).
Proof. vm_compute. reflexivity. Qed.

(** ** C7: the signature *)

(** C7: for every byte source, when the seek to the base address succeeds
    and 4 bytes can be read there: if they are not "FBPT" the check fails
    with an error whose message ends with those 4 bytes, and the scan
    returns that error with the count 0 and no record; if they are "FBPT"
    and 4 more bytes can be read, the check returns them as a
    little-endian [uint32]. *)
Theorem signature_check {S : Type} `{ReadSeeker S} (f f1 f2 : S) (fbptAddr x : Z)
    (fbptSig : list byte) :
  Seek (int64_of_uint64 fbptAddr) SeekStart f = (f1, Ok x) ->
  ReadFull 4 f1 = (f2, Ok fbptSig) ->
  (string_of_list_byte fbptSig <> FBPTStructureSig ->
   verifyFBPTSignature fbptAddr f
   = (f2, Err (errors_New
                 (String.append "FBPT structure signature check failed. Expected: FBPT, Got: "
                    (string_of_list_byte fbptSig))))
   /\ forall fuel,
        FindAllFBPTRecords fuel (Ok f) fbptAddr
        = Some (0%nat, [],
                Some (errors_New
                        (String.append
                           "FBPT structure signature check failed. Expected: FBPT, Got: "
                           (string_of_list_byte fbptSig)))))
  /\ (string_of_list_byte fbptSig = FBPTStructureSig ->
      forall (f3 : S) (b0 b1 b2 b3 : byte),
        ReadFull 4 f2 = (f3, Ok [b0; b1; b2; b3]) ->
        verifyFBPTSignature fbptAddr f
        = (f3, Ok (byte_Z b0 + 2 ^ 8 * byte_Z b1 + 2 ^ 16 * byte_Z b2 + 2 ^ 24 * byte_Z b3))).
Proof.
  intros Hseek Hsig. split.
  - intros Hne.
    assert (Hv : verifyFBPTSignature fbptAddr f
                 = (f2, Err (errors_New
                               (String.append
                                  "FBPT structure signature check failed. Expected: FBPT, Got: "
                                  (string_of_list_byte fbptSig))))).
    { unfold verifyFBPTSignature.
      rewrite (bind_Ok _ _ _ _ _ Hseek), (bind_Ok _ _ _ _ _ Hsig).
      destruct (String.eqb_spec (string_of_list_byte fbptSig) FBPTStructureSig); [done|].
      reflexivity. }
    split; [exact Hv|]. intros fuel. unfold FindAllFBPTRecords. by rewrite Hv.
  - intros Heq f3 b0 b1 b2 b3 Hlen.
    unfold verifyFBPTSignature.
    rewrite (bind_Ok _ _ _ _ _ Hseek), (bind_Ok _ _ _ _ _ Hsig).
    rewrite Heq, String.eqb_refl. cbn [negb].
    rewrite (bind_Ok _ _ _ _ _ Hlen). unfold ret.
    by rewrite LittleEndian_Uint32_bytes.
Qed.

Lemma signature_check_witness :
  verifyFBPTSignature 0 (mkFile bad_signature_device 0)
  = (mkFile bad_signature_device 4,
     Err (errors_New
            (String.append "FBPT structure signature check failed. Expected: FBPT, Got: "
               (string_of_list_byte (list_byte_of_string "XXXX")))))
  /\ forall fuel,
       FindAllFBPTRecords fuel (Ok (mkFile bad_signature_device 0)) 0
       = Some (0%nat, [],
               Some (errors_New
                       (String.append
                          "FBPT structure signature check failed. Expected: FBPT, Got: "
                          (string_of_list_byte (list_byte_of_string "XXXX"))))).
Proof.
  eapply (signature_check (mkFile bad_signature_device 0) (mkFile bad_signature_device 0)
            (mkFile bad_signature_device 4) 0 0 (list_byte_of_string "XXXX")).
  - vm_compute. reflexivity.
  - vm_compute. reflexivity.
  - vm_compute. discriminate.
Defined.

Example bad_signature_scan :
  FindAllFBPTRecords 0 (Ok (mkFile bad_signature_device 0)) 0
  = Some (0%nat, [],
          Some (errors_New "FBPT structure signature check failed. Expected: FBPT, Got: XXXX")).
Proof. reflexivity. Qed.

(** ** C8: the hook-type codes *)

(** C8: the lookup of a hook-type code is total and never fails.  The code
    0x01 gives "MODULE_START_ID", every entry of the static table gives its
    name, every code that is not in the table (0xFF is one) gives the empty
    label, and the decoder, when its five reads succeed, returns a record
    and no error whatever the code is. *)
Theorem hook_type_lookup_total :
  map_index eventTypeMap 0x01 = "MODULE_START_ID"%string
  /\ (forall code name, (code, name) ∈ eventTypeEntries -> map_index eventTypeMap code = name)
  /\ (forall code, code ∉ eventTypeEntries.*1 -> map_index eventTypeMap code = ""%string)
  /\ map_index eventTypeMap 0xFF = ""%string
  /\ (forall (S : Type) (RS : ReadSeeker S) (recordLength : Z) (f f1 f2 f3 f4 f5 : S)
        (hk pid ts guid desc : list byte),
        ReadFull 2 f = (f1, Ok hk) ->
        ReadFull 4 f1 = (f2, Ok pid) ->
        ReadFull 8 f2 = (f3, Ok ts) ->
        ReadFull 16 f3 = (f4, Ok guid) ->
        ReadFull (Z.to_nat (wrap 8 (recordLength - 34))) f4 = (f5, Ok desc) ->
        exists r, readFirmwarePerformanceDataTableDynamicRecord recordLength f = (f5, Ok r)
                  /\ HookType r = map_index eventTypeMap (LittleEndian_Uint16 hk)).
Proof.
  split; [reflexivity|]. split; [|split; [|split; [reflexivity|]]].
  - intros code name Hin. unfold map_index, eventTypeMap.
    rewrite (elem_of_list_to_map_1 _ _ _ eventTypeEntries_NoDup Hin). reflexivity.
  - intros code Hnin. unfold map_index, eventTypeMap.
    rewrite (not_elem_of_list_to_map_1 _ _ Hnin). reflexivity.
  - intros S RS recordLength f f1 f2 f3 f4 f5 hk pid ts guid desc E1 E2 E3 E4 E5.
    eexists. split; [by apply (readDynamicRecord_reads recordLength f f1 f2 f3 f4 f5)|].
    reflexivity.
Qed.

Lemma hook_type_lookup_total_witness :
  map_index eventTypeMap PERF_FUNCTION_START_ID = "PERF_FUNCTION_START_ID"%string
  /\ map_index eventTypeMap 0x1234 = ""%string
  /\ exists r,
       readFirmwarePerformanceDataTableDynamicRecord 34
         (mkFile (encode_dynamic_body 0xFF unknown_hook_record) 0)
       = (mkFile (encode_dynamic_body 0xFF unknown_hook_record) 30, Ok r)
       /\ HookType r = map_index eventTypeMap (LittleEndian_Uint16 [xff; x00]).
Proof.
  destruct hook_type_lookup_total as (_ & Hin & Hout & _ & Hdec).
  split; [|split].
  - apply Hin. compute_done.
  - apply Hout. compute_done.
  - apply (Hdec File File_ReadSeeker 34
             (mkFile (encode_dynamic_body 0xFF unknown_hook_record) 0)
             (mkFile (encode_dynamic_body 0xFF unknown_hook_record) 2)
             (mkFile (encode_dynamic_body 0xFF unknown_hook_record) 6)
             (mkFile (encode_dynamic_body 0xFF unknown_hook_record) 14)
             (mkFile (encode_dynamic_body 0xFF unknown_hook_record) 30)
             (mkFile (encode_dynamic_body 0xFF unknown_hook_record) 30)
             [xff; x00] (le_bytes 4 1) (le_bytes 8 2) sample_guid []);
      vm_compute; reflexivity.
Defined.

(** ** C9: the round trip *)

Example MixedGUID_String_sample :
  MixedGUID_String sample_guid = "03020100-0504-0706-0809-0a0b0c0d0e0f"%string.
Proof. reflexivity. Qed.

(** C9: for every measurement record whose label is the one of a code of
    the static table and whose fields fit the layout (a [uint32], a
    [uint64], 16 bytes of guid, a description that the one-byte length can
    declare), the bytes of its encoding, read back with the declared length
    34 + the length of the description, give the same record: the same
    label, processor identifier, timestamp, guid text and description. *)
Theorem dynamic_record_round_trip (f : File) (code : Z) (r : MEASUREMENT_RECORD)
    (rest : list byte) :
  eventTypeMap !! code = Some (HookType r) ->
  0 <= ProcessorIdentifier r < 2 ^ 32 ->
  0 <= Timestamp r < 2 ^ 64 ->
  length (GUID r) = 16%nat ->
  (length (list_byte_of_string (Description r)) <= 221)%nat ->
  0 <= offset f ->
  unread f = encode_dynamic_body code r ++ rest ->
  exists f' r',
    readFirmwarePerformanceDataTableDynamicRecord
      (34 + Z.of_nat (length (list_byte_of_string (Description r)))) f
    = (f', Ok r')
    /\ r' = r
    /\ HookType r' = HookType r
    /\ ProcessorIdentifier r' = ProcessorIdentifier r
    /\ Timestamp r' = Timestamp r
    /\ MixedGUID_String (GUID r') = MixedGUID_String (GUID r)
    /\ Description r' = Description r
    /\ unread f' = rest.
Proof.
  intros Hcode Hp Ht Hg Hd Ho Hu.
  assert (Henc : encodable code r).
  { split; [exact (eventTypeMap_code_range _ _ Hcode)|].
    split; [unfold map_index; by rewrite Hcode|]. done. }
  exists (advance f (Z.of_nat (length (encode_dynamic_body code r)))), r.
  split; [exact (readDynamicRecord_encoded f code r rest Ho Henc Hu)|].
  repeat split. by apply unread_advance.
Qed.

Lemma dynamic_record_round_trip_witness :
  exists f' r',
    readFirmwarePerformanceDataTableDynamicRecord
      (34 + Z.of_nat (length (list_byte_of_string (Description sample_record))))
      (mkFile (encode_dynamic_body MODULE_START_ID sample_record ++ [x00]) 0)
    = (f', Ok r')
    /\ r' = sample_record
    /\ HookType r' = HookType sample_record
    /\ ProcessorIdentifier r' = ProcessorIdentifier sample_record
    /\ Timestamp r' = Timestamp sample_record
    /\ MixedGUID_String (GUID r') = MixedGUID_String (GUID sample_record)
    /\ Description r' = Description sample_record
    /\ unread f' = [x00].
Proof.
  apply (dynamic_record_round_trip
           (mkFile (encode_dynamic_body MODULE_START_ID sample_record ++ [x00]) 0)
           MODULE_START_ID sample_record [x00]).
  - vm_compute. reflexivity.
  - vm_compute. split; [discriminate | reflexivity].
  - vm_compute. split; [discriminate | reflexivity].
  - reflexivity.
  - vm_compute. lia.
  - vm_compute. discriminate.
  - reflexivity.
Defined.

(** ** C10: the slice of a successful scan *)

(** C10: for every byte source, when the scan returns no error the slice
    it returns has exactly 2000 entries, the count is the number of
    dynamic-string records that the loop decoded, the first entries are
    those records in order, and every entry from the count on is the
    zero-valued record (empty hook type, timestamp 0, empty description). *)
Theorem successful_scan_slice {S : Type} `{ReadSeeker S} (fuel : nat) (opened : result S)
    (FBPTAddr : Z) (count : nat) (recs : list MEASUREMENT_RECORD) :
  FindAllFBPTRecords fuel opened FBPTAddr = Some (count, recs, None) ->
  length recs = maxNumberOfFBPTPerfRecords
  /\ (count <= maxNumberOfFBPTPerfRecords)%nat
  /\ (forall i, (count <= i < maxNumberOfFBPTPerfRecords)%nat ->
        recs !! i = Some zero_MEASUREMENT_RECORD)
  /\ HookType zero_MEASUREMENT_RECORD = ""%string
  /\ Timestamp zero_MEASUREMENT_RECORD = 0
  /\ Description zero_MEASUREMENT_RECORD = ""%string
  /\ exists f f1 tablelength,
       opened = Ok f
       /\ verifyFBPTSignature FBPTAddr f = (f1, Ok tablelength)
       /\ count = length (decoded_records fuel tablelength (initial_state f1))
       /\ take count recs = decoded_records fuel tablelength (initial_state f1).
Proof.
  unfold FindAllFBPTRecords.
  destruct opened as [f|e]; [|discriminate].
  destruct (verifyFBPTSignature FBPTAddr f) as [f1 [tablelength|e]] eqn:Hv; [|discriminate].
  destruct (scan_loop fuel tablelength (initial_state f1)) as [[st|st e]|] eqn:Hs;
    [|discriminate..].
  intros [= <- <-].
  destruct (scan_loop_invariant fuel tablelength (initial_state f1) (Finished st))
    as (E1 & E2 & E3 & E4 & E5).
  - apply length_replicate.
  - cbn. lia.
  - apply zero_from_initial.
  - exact Hs.
  - cbn [outcome_state initial_state ls_index ls_measurementRecords] in E1, E2, E3, E4, E5.
    rewrite take_0 in E4. cbn [app] in E4. rewrite Nat.add_0_l in E1.
    split; [exact E3|]. split; [exact E2|].
    split; [intros i Hi; apply E5; lia|].
    do 3 (split; [reflexivity|]).
    exists f, f1, tablelength. done.
Qed.

Lemma successful_scan_slice_witness :
  length (measurements small_table ++ replicate 1998 zero_MEASUREMENT_RECORD)
  = maxNumberOfFBPTPerfRecords.
Proof.
  apply (successful_scan_slice 3 (Ok (mkFile (encode_table small_table) 0)) 0 2
           (measurements small_table ++ replicate 1998 zero_MEASUREMENT_RECORD)).
  vm_compute. reflexivity.
Defined.

(** * Further properties of the package and of the command *)

(** ** What a read that succeeds has read *)

Lemma advance_0 (f : File) : advance f 0 = f.
Proof. destruct f. unfold advance. cbn. by rewrite Z.add_0_r. Qed.

Lemma File_ReadFull_Ok (n : nat) (f f' : File) (bs : list byte) :
  0 <= offset f ->
  File_ReadFull n f = (f', Ok bs) ->
  f' = advance f (Z.of_nat n)
  /\ unread f = bs ++ unread f'
  /\ length bs = n
  /\ (n <> 0%nat -> offset f + Z.of_nat n <= file_size f).
Proof.
  intros Ho. unfold File_ReadFull, file_size.
  destruct (Nat.eqb_spec n 0) as [->|Hn].
  - intros [= <- <-]. rewrite advance_0. done.
  - destruct (Z.leb_spec (Z.of_nat (length (contents f))) (offset f)); [discriminate|].
    destruct (Z.ltb_spec (Z.of_nat (length (contents f))) (offset f + Z.of_nat n));
      [discriminate|].
    intros [= <- <-]. split; [reflexivity|]. unfold unread. cbn [contents offset].
    replace (Z.to_nat (offset f + Z.of_nat n)) with (Z.to_nat (offset f) + n)%nat by lia.
    rewrite <- drop_drop, take_drop. split; [reflexivity|].
    split; [|intros _; lia].
    rewrite length_take, length_drop. lia.
Qed.

(** A step of a computation that goes on after a read. *)
Lemma bind_ReadFull_Ok {B} (n : nat) (k : list byte -> IO File B) (f f' : File) (b : B) :
  0 <= offset f ->
  bind (ReadFull n) k f = (f', Ok b) ->
  exists bs,
    k bs (advance f (Z.of_nat n)) = (f', Ok b)
    /\ unread f = bs ++ unread (advance f (Z.of_nat n))
    /\ length bs = n
    /\ (n <> 0%nat -> offset f + Z.of_nat n <= file_size f).
Proof.
  intros Ho E. apply bind_inv_Ok in E as (f1 & bs & Er & Ek).
  destruct (File_ReadFull_Ok n f f1 bs Ho Er) as (-> & Hu & Hl & Hs).
  exists bs. done.
Qed.

(** The signature check that succeeds: the base address is inside the
    device, "FBPT" and four bytes of length lie there, and the cursor is
    left behind them. *)
Lemma verifyFBPTSignature_File_inv (fbptAddr : Z) (f f' : File) (tablelength : Z) :
  verifyFBPTSignature fbptAddr f = (f', Ok tablelength) ->
  0 <= int64_of_uint64 fbptAddr
  /\ f' = mkFile (contents f) (int64_of_uint64 fbptAddr + 8)
  /\ int64_of_uint64 fbptAddr + 8 <= file_size f
  /\ exists lenb rest,
       drop (Z.to_nat (int64_of_uint64 fbptAddr)) (contents f)
       = list_byte_of_string FBPTStructureSig ++ lenb ++ rest
       /\ length lenb = 4%nat
       /\ tablelength = le_uint lenb.
Proof.
  unfold verifyFBPTSignature. intros E.
  apply bind_inv_Ok in E as (fa & x & Ea & E).
  cbn [Seek File_ReadSeeker] in Ea. unfold File_Seek in Ea.
  destruct (Z.ltb_spec (int64_of_uint64 fbptAddr) 0) as [|Ha]; [discriminate|].
  destruct (maxInt64 <? int64_of_uint64 fbptAddr); [discriminate|].
  cbn [orb] in Ea. injection Ea as <- _.
  set (a := int64_of_uint64 fbptAddr) in *.
  apply bind_ReadFull_Ok in E as (sig & E & Hu1 & Hl1 & Hs1); [|exact Ha].
  destruct (String.eqb_spec (string_of_list_byte sig) FBPTStructureSig) as [Hsig|];
    [|discriminate].
  cbn [negb] in E.
  apply bind_ReadFull_Ok in E as (lenb & E & Hu2 & Hl2 & Hs2);
    [|rewrite offset_advance; cbn; lia].
  rewrite advance_advance in *. injection E as <- <-.
  unfold file_size in *. cbn [contents offset advance] in *.
  split; [exact Ha|]. split; [reflexivity|]. split; [lia|].
  exists lenb, (unread (advance (mkFile (contents f) a) (Z.of_nat 4 + Z.of_nat 4))).
  split; [|split; [exact Hl2|]].
  - change (drop (Z.to_nat a) (contents f)) with (unread (mkFile (contents f) a)).
    rewrite Hu1, Hu2. rewrite <- Hsig, list_byte_of_string_of_list_byte. reflexivity.
  - unfold LittleEndian_Uint32. by rewrite take_ge by lia.
Qed.

(** ** The table header *)

(** X1: a scan that returns no error has found the table header inside
    the device: the base address is a valid offset, 8 bytes lie there, and
    the first 4 of them are "FBPT". *)
Theorem scan_success_needs_signature (fuel : nat) (f : File) (FBPTAddr : Z) (count : nat)
    (recs : list MEASUREMENT_RECORD) :
  FindAllFBPTRecords fuel (Ok f) FBPTAddr = Some (count, recs, None) ->
  0 <= int64_of_uint64 FBPTAddr
  /\ int64_of_uint64 FBPTAddr + 8 <= file_size f
  /\ take 4 (drop (Z.to_nat (int64_of_uint64 FBPTAddr)) (contents f))
     = list_byte_of_string FBPTStructureSig.
Proof.
  unfold FindAllFBPTRecords.
  destruct (verifyFBPTSignature FBPTAddr f) as [f1 [tablelength|e]] eqn:Hv; [|discriminate].
  intros _.
  destruct (verifyFBPTSignature_File_inv _ _ _ _ Hv) as (Ha & _ & Hs & lenb & rest & Hd & _).
  split; [exact Ha|]. split; [exact Hs|]. rewrite Hd. reflexivity.
Qed.

Lemma scan_success_needs_signature_witness :
  0 <= int64_of_uint64 0
  /\ int64_of_uint64 0 + 8 <= file_size (mkFile (encode_table small_table) 0)
  /\ take 4 (drop (Z.to_nat (int64_of_uint64 0)) (contents (mkFile (encode_table small_table) 0)))
     = list_byte_of_string FBPTStructureSig.
Proof.
  apply (scan_success_needs_signature 3 (mkFile (encode_table small_table) 0) 0 2
           (measurements small_table ++ replicate 1998 zero_MEASUREMENT_RECORD)).
  vm_compute. reflexivity.
Defined.

(** X2: when the 8 bytes of the table header do not lie inside the device
    (the base address is negative as an [int64], or fewer than 8 bytes
    follow it) the scan returns the count 0, a nil slice and an error,
    whatever the bytes are and however many iterations are allowed. *)
Theorem header_outside_device_is_an_error (fuel : nat) (f : File) (FBPTAddr : Z) :
  int64_of_uint64 FBPTAddr < 0 \/ file_size f < int64_of_uint64 FBPTAddr + 8 ->
  exists err, FindAllFBPTRecords fuel (Ok f) FBPTAddr = Some (0%nat, [], Some err).
Proof.
  intros Hout. unfold FindAllFBPTRecords.
  destruct (verifyFBPTSignature FBPTAddr f) as [f1 [tablelength|e]] eqn:Hv; [|eauto].
  destruct (verifyFBPTSignature_File_inv _ _ _ _ Hv) as (Ha & _ & Hs & _). lia.
Qed.

Lemma header_outside_device_is_an_error_witness :
  exists err,
    FindAllFBPTRecords 0 (Ok (mkFile (list_byte_of_string "FBPT&") 0)) (2 ^ 63)
    = Some (0%nat, [], Some err).
Proof.
  apply (header_outside_device_is_an_error 0 (mkFile (list_byte_of_string "FBPT&") 0) (2 ^ 63)).
  left. vm_compute. reflexivity.
Defined.

Example short_header_scan :
  FindAllFBPTRecords 0 (Ok (mkFile (list_byte_of_string "FBPT&") 0)) 0
  = Some (0%nat, [], Some ErrUnexpectedEOF)
  /\ FindAllFBPTRecords 0 (Ok (mkFile (list_byte_of_string "FBPT&") 0)) (2 ^ 63)
     = Some (0%nat, [], Some (Errno EINVAL)).
Proof. split; vm_compute; reflexivity. Qed.

(** ** One iteration over a record *)

(** X3: an iteration over a record of another type than 0x1011 that
    declares a length L >= 4 moves the cursor by exactly L bytes, adds L to
    the bytes consumed and leaves the slice and the index alone.  The bytes
    of the record behind its header are not read, and need not be in the
    device. *)
Theorem skip_advances_by_declared_length (st : @LoopState File) (b0 b1 b2 b3 : byte)
    (rest : list byte) :
  0 <= offset (ls_f st) ->
  file_size (ls_f st) + 255 <= maxInt64 ->
  unread (ls_f st) = b0 :: b1 :: b2 :: b3 :: rest ->
  le_uint [b0; b1] <> FPDT_DYNAMIC_STRING_EVENT_RECORD_IDENTIFIER ->
  EFI_ACPI_5_0_FPDT_PERFORMANCE_RECORD_HEADER_SIZE <= byte_Z b2 ->
  loop_body st
  = Continue (mkLoop (advance (ls_f st) (byte_Z b2)) (ls_measurementRecords st) (ls_index st)
                (wrap 32 (ls_tableBytesRead st + byte_Z b2))).
Proof.
  unfold EFI_ACPI_5_0_FPDT_PERFORMANCE_RECORD_HEADER_SIZE. intros Ho Hmax Hu Hty Hlen.
  pose proof (byte_Z_range b2) as Hb.
  assert (Hend : offset (ls_f st) + 4 <= file_size (ls_f st)).
  { apply (unread_bound _ [b0; b1; b2; b3] rest Ho Hu). done. }
  unfold loop_body. rewrite (ReadFPDTRecordHeader_File _ _ _ _ _ _ Ho Hu).
  destruct (Z.eqb_spec (le_uint [b0; b1]) FPDT_DYNAMIC_STRING_EVENT_RECORD_IDENTIFIER);
    [done|].
  unfold EFI_ACPI_5_0_FPDT_PERFORMANCE_RECORD_HEADER_SIZE.
  rewrite (wrap_small 8 (byte_Z b2 - 4)) by (change (2 ^ 8) with 256; lia).
  rewrite File_Seek_current by (rewrite offset_advance; lia).
  rewrite advance_advance, Zplus_minus. reflexivity.
Qed.

Lemma skip_advances_by_declared_length_witness :
  loop_body (initial_state (mkFile (encode_table small_table) 47))
  = Continue (mkLoop (advance (mkFile (encode_table small_table) 47) (byte_Z x09))
                (ls_measurementRecords (initial_state (mkFile (encode_table small_table) 47)))
                0%nat (wrap 32 (0 + byte_Z x09))).
Proof.
  apply (skip_advances_by_declared_length
           (initial_state (mkFile (encode_table small_table) 47)) x00 x10 x09 x01
           (drop 51 (encode_table small_table))).
  - vm_compute. discriminate.
  - vm_compute. discriminate.
  - vm_compute. reflexivity.
  - vm_compute. discriminate.
  - vm_compute. discriminate.
Defined.

(** X4: an iteration over a dynamic-string record that declares a length
    L >= 34 and whose L - 4 bytes of body are in the device moves the cursor
    by exactly L bytes, adds L to the bytes consumed, stores the decoded
    record at the index and increments the index.  The description is the
    L - 34 bytes behind the 30 bytes of the fixed fields. *)
Theorem dynamic_record_consumes_declared_length (st : @LoopState File) (b0 b1 b2 b3 : byte)
    (body rest : list byte) :
  0 <= offset (ls_f st) ->
  unread (ls_f st) = b0 :: b1 :: b2 :: b3 :: body ++ rest ->
  le_uint [b0; b1] = FPDT_DYNAMIC_STRING_EVENT_RECORD_IDENTIFIER ->
  34 <= byte_Z b2 ->
  Z.of_nat (length body) = byte_Z b2 - 4 ->
  loop_body st
  = Continue
      (mkLoop (advance (ls_f st) (byte_Z b2))
         (<[ls_index st :=
              {| HookType := map_index eventTypeMap (le_uint (take 2 body));
                 ProcessorIdentifier := le_uint (take 4 (drop 2 body));
                 Timestamp := le_uint (take 8 (drop 6 body));
                 GUID := take 16 (drop 14 body);
                 Description := string_of_list_byte (drop 30 body) |}]>
            (ls_measurementRecords st))
         (Datatypes.S (ls_index st))
         (wrap 32 (ls_tableBytesRead st + byte_Z b2))).
Proof.
  intros Ho Hu Hty Hlen Hbody.
  pose proof (byte_Z_range b2) as Hb.
  assert (Hw : wrap 8 (byte_Z b2 - 34) = byte_Z b2 - 34)
    by (apply wrap_small; change (2 ^ 8) with 256; lia).
  assert (Hu4 : unread (advance (ls_f st) 4) = body ++ rest).
  { apply (unread_advance _ [b0; b1; b2; b3]); [exact Ho | exact Hu]. }
  unfold loop_body. rewrite (ReadFPDTRecordHeader_File _ _ _ _ _ _ Ho Hu).
  rewrite Hty, Z.eqb_refl.
  rewrite (readDynamicRecord_File (advance (ls_f st) 4) (byte_Z b2)
             (take 2 body) (take 4 (drop 2 body)) (take 8 (drop 6 body))
             (take 16 (drop 14 body)) (drop 30 body) rest).
  - rewrite advance_advance, Hw.
    replace (4 + (30 + (byte_Z b2 - 34))) with (byte_Z b2) by lia. reflexivity.
  - rewrite offset_advance. lia.
  - rewrite Hu4.
    rewrite <- (take_drop 2 body) at 1.
    rewrite <- (take_drop 4 (drop 2 body)) at 1.
    rewrite <- (take_drop 8 (drop 4 (drop 2 body))) at 1.
    rewrite <- (take_drop 16 (drop 8 (drop 4 (drop 2 body)))) at 1.
    rewrite !drop_drop. cbn [Nat.add]. by rewrite <- !app_assoc.
  - rewrite length_take. lia.
  - rewrite length_take, length_drop. lia.
  - rewrite length_take, length_drop. lia.
  - rewrite length_take, length_drop. lia.
  - rewrite length_drop, Hw. lia.
Qed.

Lemma dynamic_record_consumes_declared_length_witness :
  loop_body (initial_state (mkFile (encode_table small_table) 8))
  = Continue
      (mkLoop (advance (mkFile (encode_table small_table) 8) (byte_Z x27))
         (<[0%nat :=
              {| HookType := map_index eventTypeMap
                               (le_uint (take 2 (encode_dynamic_body 1 sample_record)));
                 ProcessorIdentifier :=
                   le_uint (take 4 (drop 2 (encode_dynamic_body 1 sample_record)));
                 Timestamp := le_uint (take 8 (drop 6 (encode_dynamic_body 1 sample_record)));
                 GUID := take 16 (drop 14 (encode_dynamic_body 1 sample_record));
                 Description :=
                   string_of_list_byte (drop 30 (encode_dynamic_body 1 sample_record)) |}]>
            (ls_measurementRecords (initial_state (mkFile (encode_table small_table) 8))))
         1%nat (wrap 32 (0 + byte_Z x27))).
Proof.
  apply (dynamic_record_consumes_declared_length
           (initial_state (mkFile (encode_table small_table) 8)) x11 x10 x27 x01
           (encode_dynamic_body 1 sample_record)
           (drop 47 (encode_table small_table))).
  - vm_compute. discriminate.
  - vm_compute. reflexivity.
  - vm_compute. reflexivity.
  - vm_compute. discriminate.
  - vm_compute. reflexivity.
Defined.

(** ** The fields of a decoded record *)

Lemma length_string_of_list_byte (l : list byte) :
  String.length (string_of_list_byte l) = length l.
Proof.
  unfold string_of_list_byte.
  induction l as [|b l IH]; simpl; [reflexivity | by rewrite IH].
Qed.

Lemma le_uint_take_bound (n : nat) (l : list byte) :
  0 <= le_uint (take n l) < 2 ^ (8 * Z.of_nat n).
Proof.
  pose proof (le_uint_bound (take n l)) as Hb.
  assert (Hl : (length (take n l) <= n)%nat) by (rewrite length_take; lia).
  split; [lia|]. eapply Z.lt_le_trans; [apply Hb|].
  apply Z.pow_le_mono_r; lia.
Qed.

Lemma map_index_eventTypeMap (code : Z) :
  map_index eventTypeMap code = ""%string
  \/ (code, map_index eventTypeMap code) ∈ eventTypeEntries.
Proof.
  unfold map_index. destruct (eventTypeMap !! code) as [name|] eqn:E; [right | by left].
  by apply elem_of_list_to_map_2.
Qed.

(** X5: whatever bytes the decoder reads, the record it returns has a
    processor identifier below 2^32, a timestamp below 2^64, a guid of 16
    bytes, a description of (recordLength - 34) mod 256 bytes, so of 255
    bytes at most, and a label that is empty or a name of the static table;
    the cursor has moved by 30 bytes and the description. *)
Theorem decoded_fields_in_range (recordLength : Z) (f f' : File) (r : MEASUREMENT_RECORD) :
  0 <= offset f ->
  readFirmwarePerformanceDataTableDynamicRecord recordLength f = (f', Ok r) ->
  0 <= ProcessorIdentifier r < 2 ^ 32
  /\ 0 <= Timestamp r < 2 ^ 64
  /\ length (GUID r) = 16%nat
  /\ Z.of_nat (String.length (Description r)) = wrap 8 (recordLength - 34)
  /\ (String.length (Description r) <= 255)%nat
  /\ (HookType r = ""%string \/ exists code, (code, HookType r) ∈ eventTypeEntries)
  /\ offset f' = offset f + 30 + wrap 8 (recordLength - 34).
Proof.
  intros Ho E. unfold readFirmwarePerformanceDataTableDynamicRecord in E.
  pose proof (wrap_range 8 (recordLength - 34) ltac:(lia)) as Hw.
  change (2 ^ 8) with 256 in Hw.
  apply bind_ReadFull_Ok in E as (hk & E & _ & _ & _); [|exact Ho].
  apply bind_ReadFull_Ok in E as (pid & E & _ & _ & _); [|rewrite offset_advance; lia].
  rewrite advance_advance in E.
  apply bind_ReadFull_Ok in E as (ts & E & _ & _ & _); [|rewrite offset_advance; lia].
  rewrite advance_advance in E.
  apply bind_ReadFull_Ok in E as (guid & E & _ & Hg & _); [|rewrite offset_advance; lia].
  rewrite advance_advance in E.
  apply bind_ReadFull_Ok in E as (desc & E & _ & Hd & _); [|rewrite offset_advance; lia].
  rewrite advance_advance in E. injection E as <- <-.
  cbn [ProcessorIdentifier Timestamp GUID Description HookType].
  rewrite length_string_of_list_byte, Hd.
  split; [apply (le_uint_take_bound 4)|]. split; [apply (le_uint_take_bound 8)|].
  split; [exact Hg|]. split; [lia|]. split; [lia|]. split.
  - destruct (map_index_eventTypeMap (LittleEndian_Uint16 hk)) as [?|?]; [by left|].
    right. eauto.
  - rewrite offset_advance. lia.
Qed.

Lemma decoded_fields_in_range_witness :
  0 <= ProcessorIdentifier sample_record < 2 ^ 32
  /\ 0 <= Timestamp sample_record < 2 ^ 64
  /\ length (GUID sample_record) = 16%nat
  /\ Z.of_nat (String.length (Description sample_record)) = wrap 8 (39 - 34)
  /\ (String.length (Description sample_record) <= 255)%nat
  /\ (HookType sample_record = ""%string
      \/ exists code, (code, HookType sample_record) ∈ eventTypeEntries)
  /\ offset (mkFile (encode_dynamic_body 1 sample_record) 35)
     = offset (mkFile (encode_dynamic_body 1 sample_record) 0) + 30 + wrap 8 (39 - 34).
Proof.
  apply (decoded_fields_in_range 39 (mkFile (encode_dynamic_body 1 sample_record) 0)
           (mkFile (encode_dynamic_body 1 sample_record) 35) sample_record).
  - vm_compute. discriminate.
  - vm_compute. reflexivity.
Defined.

(** ** The labels of the static table *)

Lemma NoDup_snd_inj {A B} (l : list (A * B)) (a a' : A) (b : B) :
  NoDup l.*2 -> (a, b) ∈ l -> (a', b) ∈ l -> a = a'.
Proof.
  induction l as [|[x y] l IH]; intros Hnd H1 H2; [by apply elem_of_nil in H1|].
  cbn in Hnd. apply NoDup_cons in Hnd as [Hy Hnd].
  apply elem_of_cons in H1 as [H1|H1]; apply elem_of_cons in H2 as [H2|H2].
  - congruence.
  - exfalso. apply Hy. injection H1 as _ <-.
    apply (list_elem_of_fmap_2 snd) in H2. exact H2.
  - exfalso. apply Hy. injection H2 as _ <-.
    apply (list_elem_of_fmap_2 snd) in H1. exact H1.
  - by apply IH.
Qed.

Lemma eventTypeEntries_names_NoDup : NoDup eventTypeEntries.*2.
Proof. compute_done. Qed.

Lemma eventTypeEntries_names_nonempty :
  Forall (fun name => name <> ""%string) eventTypeEntries.*2.
Proof. compute_done. Qed.

(** X6: the label of a code of the static table is not empty and no
    other code, in the table or not, decodes to it: a non-empty label
    identifies its code, and only codes outside the table give the empty
    label. *)
Theorem hook_label_identifies_code (code : Z) (name : string) :
  eventTypeMap !! code = Some name ->
  name <> ""%string
  /\ forall code', map_index eventTypeMap code' = name -> code' = code.
Proof.
  intros Hl. apply elem_of_list_to_map_2 in Hl.
  assert (Hne : name <> ""%string).
  { apply (proj1 (Forall_forall _ _) eventTypeEntries_names_nonempty).
    apply (list_elem_of_fmap_2 snd) in Hl. exact Hl. }
  split; [exact Hne|]. intros code' Hc'.
  destruct (map_index_eventTypeMap code') as [He|Hin]; [congruence|].
  rewrite Hc' in Hin.
  exact (NoDup_snd_inj _ _ _ _ eventTypeEntries_names_NoDup Hin Hl).
Qed.

Lemma hook_label_identifies_code_witness :
  "PERF_CALLBACK_END_ID"%string <> ""%string
  /\ forall code', map_index eventTypeMap code' = "PERF_CALLBACK_END_ID"%string ->
                   code' = PERF_CALLBACK_END_ID.
Proof.
  apply (hook_label_identifies_code PERF_CALLBACK_END_ID).
  vm_compute. reflexivity.
Defined.

(** ** The report of the command *)

Lemma zero_from_drop (idx : nat) (recs : list MEASUREMENT_RECORD) :
  zero_from idx recs ->
  drop idx recs = replicate (length recs - idx) zero_MEASUREMENT_RECORD.
Proof.
  intros Hz. apply list_eq. intros i. rewrite lookup_drop.
  destruct (decide (idx + i < length recs)%nat) as [Hlt|Hge].
  - rewrite Hz by lia. symmetry. apply lookup_replicate_2. lia.
  - rewrite (proj2 (lookup_ge_None _ _)) by lia.
    symmetry. apply lookup_replicate_None. lia.
Qed.

(** The zero-valued entries at the end of the slice print nothing. *)
Lemma print_records_padding (i k : nat) (l : list MEASUREMENT_RECORD) :
  print_records i (l ++ replicate k zero_MEASUREMENT_RECORD) = print_records i l.
Proof.
  revert i. induction l as [|r l IH]; intros i.
  - cbn [app]. revert i. induction k as [|k IHk]; intros i; [reflexivity|].
    cbn [replicate print_records]. change (is_blank zero_MEASUREMENT_RECORD) with true.
    cbn iota. apply IHk.
  - cbn [app print_records]. rewrite IH. reflexivity.
Qed.

Lemma length_print_records (i : nat) (l : list MEASUREMENT_RECORD) :
  (length (print_records i l) <= length l)%nat.
Proof.
  revert i. induction l as [|r l IH]; intros i; [reflexivity|].
  cbn [print_records length]. specialize (IH (Datatypes.S i)).
  destruct (is_blank r); cbn [length]; lia.
Qed.

(** Records of which none is blank are all printed, numbered in order. *)
Lemma print_records_no_blank (i : nat) (l : list MEASUREMENT_RECORD) :
  Forall (fun r => is_blank r = false) l ->
  print_records i l = imap (fun k r => Printf (record_line (i + k) r)) l.
Proof.
  intros Hl. revert i. induction Hl as [|r l Hr _ IH]; intros i; [reflexivity|].
  cbn [print_records imap]. rewrite Hr, Nat.add_0_r, IH. f_equal.
  apply imap_ext. intros k x _. unfold compose. by rewrite Nat.add_succ_r.
Qed.

Section ScanFacts.
Context {S : Type} `{ReadSeeker S}.

(** The slice of a scan without error: the first [count] entries, then
    zero-valued entries up to 2000. *)
Lemma successful_scan_padding (fuel : nat) (opened : result S) (FBPTAddr : Z) (count : nat)
    (recs : list MEASUREMENT_RECORD) :
  FindAllFBPTRecords fuel opened FBPTAddr = Some (count, recs, None) ->
  (count <= maxNumberOfFBPTPerfRecords)%nat
  /\ recs = take count recs
            ++ replicate (maxNumberOfFBPTPerfRecords - count) zero_MEASUREMENT_RECORD.
Proof.
  unfold FindAllFBPTRecords.
  destruct opened as [f|e]; [|discriminate].
  destruct (verifyFBPTSignature FBPTAddr f) as [f1 [tablelength|e]]; [|discriminate].
  destruct (scan_loop fuel tablelength (initial_state f1)) as [[st|st e]|] eqn:Hs;
    [|discriminate..].
  intros [= <- <-].
  destruct (scan_loop_invariant fuel tablelength (initial_state f1) (Finished st))
    as (_ & E2 & E3 & _ & E5).
  - apply length_replicate.
  - cbn. lia.
  - apply zero_from_initial.
  - exact Hs.
  - cbn [outcome_state] in E2, E3, E5. split; [exact E2|].
    rewrite <- E3, <- (zero_from_drop _ _ E5). by rewrite take_drop.
Qed.

End ScanFacts.

(** X7: after a scan without error [main] writes lines for entries among
    the first [count] entries of the slice only, at most [count] lines and
    so at most 2000: the zero-valued entries that fill the slice up to 2000
    are never printed. *)
Theorem main_prints_only_decoded_records {S : Type} `{ReadSeeker S} {Table : Type}
    (ReadACPIFPDTTable : Table * option error) (FindFBPTTableAdrr : Table -> result Z)
    (fuel : nat) (opened : result S) (FBPTAddr : Z) (count : nat)
    (recs : list MEASUREMENT_RECORD) :
  FindFBPTTableAdrr ReadACPIFPDTTable.1 = Ok FBPTAddr ->
  FindAllFBPTRecords fuel opened FBPTAddr = Some (count, recs, None) ->
  main ReadACPIFPDTTable FindFBPTTableAdrr fuel opened
  = Some (match ReadACPIFPDTTable.2 with Some e => [Println e] | None => [] end
          ++ print_records 0 (take count recs))
  /\ (length (print_records 0 (take count recs)) <= count)%nat
  /\ (count <= maxNumberOfFBPTPerfRecords)%nat.
Proof.
  intros Haddr Hscan.
  destruct (successful_scan_padding fuel opened FBPTAddr count recs Hscan) as [Hc Hr].
  split; [|split; [|exact Hc]].
  - unfold main. destruct ReadACPIFPDTTable as [acpiFPDT err]. cbn [fst snd] in *.
    rewrite Haddr, Hscan. rewrite Hr at 1. by rewrite print_records_padding.
  - etrans; [apply length_print_records|]. rewrite length_take. lia.
Qed.

Lemma main_prints_only_decoded_records_witness :
  main (tt, Some EOF) (fun _ : unit => Ok 0) 3 (Ok (mkFile (encode_table small_table) 0))
  = Some (match (tt, Some EOF).2 with Some e => [Println e] | None => [] end
          ++ print_records 0
               (take 2 (measurements small_table ++ replicate 1998 zero_MEASUREMENT_RECORD)))
  /\ (length (print_records 0
                (take 2 (measurements small_table
                           ++ replicate 1998 zero_MEASUREMENT_RECORD))) <= 2)%nat
  /\ (2 <= maxNumberOfFBPTPerfRecords)%nat.
Proof.
  apply (main_prints_only_decoded_records (tt, Some EOF) (fun _ : unit => Ok 0) 3
           (Ok (mkFile (encode_table small_table) 0)) 0 2
           (measurements small_table ++ replicate 1998 zero_MEASUREMENT_RECORD)).
  - reflexivity.
  - vm_compute. reflexivity.
Defined.

Example small_table_report :
  main (tt, None) (fun _ : unit => Ok 0) 3 (Ok (mkFile (encode_table small_table) 0))
  = Some
      [ Printf (String.append
                  "Index: 0,Hook Type: MODULE_START_ID, Processor Identifier/APIC ID: 7, Timestamp: 123456789, Guid: 03020100-0504-0706-0809-0a0b0c0d0e0f, Description: hello"
                  newline);
        Printf (String.append
                  "Index: 1,Hook Type: , Processor Identifier/APIC ID: 1, Timestamp: 2, Guid: 03020100-0504-0706-0809-0a0b0c0d0e0f, Description: "
                  newline) ].
Proof. vm_compute. reflexivity. Qed.

(** X8: for a well-formed table with N <= 2000 dynamic-string records at
    the address that the locator returns, [main] writes what the loop of
    the report makes of the N measurement records of the table, in table
    order; when none of them is blank (timestamp 0, empty label and empty
    description) that is one line per record, numbered 0 to N - 1.  A
    record that is blank is left out although it was decoded. *)
Theorem main_reports_well_formed_table {Table : Type}
    (ReadACPIFPDTTable : Table * option error) (FindFBPTTableAdrr : Table -> result Z)
    (ts : list TableRecord) (pre post : list byte) (fuel : nat) :
  FindFBPTTableAdrr ReadACPIFPDTTable.1 = Ok (Z.of_nat (length pre)) ->
  Forall well_formed_record ts ->
  EFI_ACPI_5_0_FBPT_HEADER_SIZE + total_length ts < 2 ^ 32 ->
  Z.of_nat (length (pre ++ encode_table ts ++ post)) <= maxInt64 ->
  (length ts <= fuel)%nat ->
  (length (measurements ts) <= maxNumberOfFBPTPerfRecords)%nat ->
  main ReadACPIFPDTTable FindFBPTTableAdrr fuel
    (Ok (mkFile (pre ++ encode_table ts ++ post) 0))
  = Some (match ReadACPIFPDTTable.2 with Some e => [Println e] | None => [] end
          ++ print_records 0 (measurements ts))
  /\ (Forall (fun r => is_blank r = false) (measurements ts) ->
      print_records 0 (measurements ts)
      = imap (fun k r => Printf (record_line k r)) (measurements ts)).
Proof.
  intros Haddr Hwf Htl Hmax Hfuel Hn. split.
  - unfold main. destruct ReadACPIFPDTTable as [acpiFPDT err]. cbn [fst snd] in *.
    rewrite Haddr.
    rewrite (FindAllFBPTRecords_encoded_table ts pre post fuel Hwf Htl Hmax Hfuel).
    rewrite take_ge by (rewrite length_app, length_replicate; lia).
    by rewrite print_records_padding.
  - intros Hnb. by rewrite print_records_no_blank.
Qed.

Lemma main_reports_well_formed_table_witness :
  main (tt, None) (fun _ : unit => Ok (Z.of_nat (length (list_byte_of_string "ACPI")))) 3
    (Ok (mkFile (list_byte_of_string "ACPI" ++ encode_table small_table ++ [x00]) 0))
  = Some (match (tt, @None error).2 with Some e => [Println e] | None => [] end
          ++ print_records 0 (measurements small_table))
  /\ (Forall (fun r => is_blank r = false) (measurements small_table) ->
      print_records 0 (measurements small_table)
      = imap (fun k r => Printf (record_line k r)) (measurements small_table)).
Proof.
  apply (main_reports_well_formed_table (tt, None)
           (fun _ : unit => Ok (Z.of_nat (length (list_byte_of_string "ACPI"))))
           small_table (list_byte_of_string "ACPI") [x00] 3).
  - reflexivity.
  - compute_done.
  - vm_compute. reflexivity.
  - vm_compute. discriminate.
  - vm_compute. lia.
  - vm_compute. lia.
Defined.

(** ** A table that lies elsewhere in the device *)

Lemma shifted_file_size (pre : list byte) (f f' : File) :
  shifted pre f f' -> file_size f = Z.of_nat (length pre) + file_size f'.
Proof. intros (Hc & _ & _). unfold file_size. rewrite Hc, length_app. lia. Qed.

Lemma shift_invariant_ret {A} (pre : list byte) (a : A) : shift_invariant pre (ret a).
Proof. intros f f' Hs. done. Qed.

Lemma shift_invariant_fail {A} (pre : list byte) (e : error) :
  shift_invariant pre (@fail File A e).
Proof. intros f f' Hs. done. Qed.

Lemma shift_invariant_bind {A B} (pre : list byte) (m : IO File A) (k : A -> IO File B) :
  shift_invariant pre m -> (forall a, shift_invariant pre (k a)) ->
  shift_invariant pre (bind m k).
Proof.
  intros Hm Hk f f' Hs. destruct (Hm f f' Hs) as [Hr Hs1]. unfold bind.
  destruct (m f) as [g [a|e]], (m f') as [g' [a'|e']]; cbn [fst snd] in *; try discriminate.
  - injection Hr as <-. by apply Hk.
  - injection Hr as <-. done.
Qed.

Lemma shift_invariant_ReadFull (pre : list byte) (n : nat) :
  shift_invariant pre (ReadFull n).
Proof.
  intros f f' Hs. pose proof (shifted_file_size pre f f' Hs) as Hsize.
  destruct Hs as (Hc & Ho & Ho'). cbn [ReadFull File_ReadSeeker].
  unfold File_ReadFull, file_size in *.
  destruct (n =? 0)%nat; [done|].
  destruct (Z.leb_spec (Z.of_nat (length (contents f))) (offset f)),
    (Z.leb_spec (Z.of_nat (length (contents f'))) (offset f')); try lia; [done|].
  destruct (Z.ltb_spec (Z.of_nat (length (contents f))) (offset f + Z.of_nat n)),
    (Z.ltb_spec (Z.of_nat (length (contents f'))) (offset f' + Z.of_nat n)); try lia.
  - cbn [fst snd]. split; [reflexivity|]. unfold shifted. cbn [contents offset]. 
    split; [exact Hc|]. lia.
  - cbn [fst snd]. split.
    + rewrite Hc, Ho.
      replace (Z.to_nat (Z.of_nat (length pre) + offset f'))
        with (length pre + Z.to_nat (offset f'))%nat by lia.
      by rewrite drop_app_add.
    + unfold shifted. cbn [contents offset]. split; [exact Hc|]. lia.
Qed.

Create HintDb shift discriminated.
#[export] Hint Resolve shift_invariant_ret shift_invariant_fail shift_invariant_bind
  shift_invariant_ReadFull : shift.

Lemma shift_invariant_ReadFPDTRecordHeader (pre : list byte) :
  shift_invariant pre ReadFPDTRecordHeader.
Proof. unfold ReadFPDTRecordHeader. auto 10 with shift. Qed.

Lemma shift_invariant_readDynamicRecord (pre : list byte) (recordLength : Z) :
  shift_invariant pre (readFirmwarePerformanceDataTableDynamicRecord recordLength).
Proof. unfold readFirmwarePerformanceDataTableDynamicRecord. auto 12 with shift. Qed.

(** A header that is read lies inside the device. *)
Lemma ReadFPDTRecordHeader_File_end (f f1 : File) (h : Z * Z * Z) :
  ReadFPDTRecordHeader f = (f1, Ok h) -> offset f1 <= file_size f.
Proof.
  unfold ReadFPDTRecordHeader. intros E.
  apply bind_inv_Ok in E as (fa & ty & Ea & E).
  apply bind_inv_Ok in E as (fb & len & Eb & E).
  apply bind_inv_Ok in E as (fc & rev & Ec & E).
  injection E as <- _.
  apply File_ReadFull_inv in Ea as (Ca & _ & _ & _), Eb as (Cb & _ & _ & _),
      Ec as (Cc & _ & Hc & _).
  destruct (Hc _ eq_refl) as [_ Hc2]. destruct Hc2 as [_ Hc2]; [done|].
  unfold file_size in *. congruence.
Qed.

(** One iteration on two shifted devices. *)
Lemma loop_body_shifted (pre : list byte) (st st' : @LoopState File) :
  shifted_state pre st st' ->
  file_size (ls_f st) + 255 <= maxInt64 ->
  match loop_body st, loop_body st' with
  | Continue s, Continue s' => shifted_state pre s s' /\ file_size (ls_f s) = file_size (ls_f st)
  | Return s e, Return s' e' => ls_index s = ls_index s' /\ e = e'
  | _, _ => False
  end.
Proof.
  intros (Hf & Hr & Hi & Hb) Hmax. unfold loop_body.
  destruct (shift_invariant_ReadFPDTRecordHeader pre _ _ Hf) as [Eh Hf1].
  destruct (ReadFPDTRecordHeader (ls_f st)) as [f1 [[[ty len] rev]|e]] eqn:E1,
    (ReadFPDTRecordHeader (ls_f st')) as [f1' [[[ty' len'] rev']|e']] eqn:E1';
    cbn [fst snd] in Eh, Hf1; try discriminate.
  2:{ injection Eh as <-. done. }
  injection Eh as <- <- <-.
  pose proof (ReadFPDTRecordHeader_File_end _ _ _ E1) as He1.
  apply ReadFPDTRecordHeader_File_inv in E1 as (Hc1 & Ho1 & Hs1).
  destruct (ty =? FPDT_DYNAMIC_STRING_EVENT_RECORD_IDENTIFIER).
  - destruct (shift_invariant_readDynamicRecord pre len _ _ Hf1) as [Ed Hf2].
    destruct (readFirmwarePerformanceDataTableDynamicRecord len f1) as [f2 [r|e]] eqn:E2,
      (readFirmwarePerformanceDataTableDynamicRecord len f1') as [f2' [r'|e']];
      cbn [fst snd] in Ed, Hf2; try discriminate.
    + injection Ed as <-. apply forward_readDynamicRecord in E2 as [Hc2 _].
      split; [|unfold file_size; cbn [ls_f]; congruence].
      unfold shifted_state. cbn [ls_f ls_measurementRecords ls_index ls_tableBytesRead].
      rewrite Hr, Hi, Hb. done.
    + injection Ed as <-. done.
  - pose proof (wrap_range 8 (len - EFI_ACPI_5_0_FPDT_PERFORMANCE_RECORD_HEADER_SIZE)
                  ltac:(lia)) as Hw.
    change (2 ^ 8) with 256 in Hw.
    destruct Hf1 as (Hc & Ho & Ho').
    unfold file_size in *.
    rewrite !File_Seek_current by (rewrite ?Ho in *; lia).
    split; [|cbn [ls_f advance contents]; congruence].
    unfold shifted_state, shifted.
    cbn [ls_f ls_measurementRecords ls_index ls_tableBytesRead advance contents offset].
    rewrite Hr, Hi, Hb. repeat split; try done; lia.
Qed.

(** The loop on two shifted devices: the same count, slice and error. *)
Lemma scan_loop_shifted (pre : list byte) (fuel : nat) (tablelength : Z) :
  forall st st' : @LoopState File,
    shifted_state pre st st' ->
    file_size (ls_f st) + 255 <= maxInt64 ->
    match scan_loop fuel tablelength st, scan_loop fuel tablelength st' with
    | None, None => True
    | Some (Finished s), Some (Finished s') =>
        ls_index s = ls_index s' /\ ls_measurementRecords s = ls_measurementRecords s'
    | Some (Aborted s e), Some (Aborted s' e') => ls_index s = ls_index s' /\ e = e'
    | _, _ => False
    end.
Proof.
  induction fuel as [|fuel IH]; intros st st' Hst Hmax; cbn [scan_loop];
    pose proof Hst as (_ & Hr & Hi & Hb); unfold loop_cond; rewrite Hi, Hb;
    destruct (_ && _); try done.
  pose proof (loop_body_shifted pre st st' Hst Hmax) as Hbody.
  destruct (loop_body st) as [s|s e], (loop_body st') as [s'|s' e']; try done.
  destruct Hbody as [Hs Hsize]. apply IH; [exact Hs | by rewrite Hsize].
Qed.

(** X9: the scan of a table does not depend on where the table lies nor
    on where the cursor of the opened file stands: with [pre] put in front
    of the device and the base address moved by the length of [pre], the
    scan returns the same count, the same records and the same error,
    whatever the bytes of the device are. *)
Theorem scan_is_position_independent (fuel : nat) (pre c : list byte) (o o' FBPTAddr : Z) :
  0 <= FBPTAddr ->
  Z.of_nat (length pre) + FBPTAddr <= maxInt64 ->
  Z.of_nat (length (pre ++ c)) + 255 <= maxInt64 ->
  FindAllFBPTRecords fuel (Ok (mkFile (pre ++ c) o)) (Z.of_nat (length pre) + FBPTAddr)
  = FindAllFBPTRecords fuel (Ok (mkFile c o')) FBPTAddr.
Proof.
  intros Ha Hpa Hmax.
  assert (Hv : (verifyFBPTSignature (Z.of_nat (length pre) + FBPTAddr) (mkFile (pre ++ c) o)).2
               = (verifyFBPTSignature FBPTAddr (mkFile c o')).2
               /\ shifted pre
                    (verifyFBPTSignature (Z.of_nat (length pre) + FBPTAddr)
                       (mkFile (pre ++ c) o)).1
                    (verifyFBPTSignature FBPTAddr (mkFile c o')).1).
  { unfold verifyFBPTSignature.
    rewrite !int64_of_uint64_small by lia.
    assert (Hr1 : 0 <= Z.of_nat (length pre) + FBPTAddr <= maxInt64) by lia.
    assert (Hr2 : 0 <= FBPTAddr <= maxInt64) by lia.
    rewrite (bind_Ok _ _ _ _ _ (File_Seek_start (mkFile (pre ++ c) o) _ Hr1)).
    rewrite (bind_Ok _ _ _ _ _ (File_Seek_start (mkFile c o') _ Hr2)).
    cbn [contents].
    assert (Hsh : shifted pre (mkFile (pre ++ c) (Z.of_nat (length pre) + FBPTAddr))
                    (mkFile c FBPTAddr)) by done.
    revert Hsh. generalize (mkFile (pre ++ c) (Z.of_nat (length pre) + FBPTAddr)).
    generalize (mkFile c FBPTAddr). intros g' g Hsh.
    apply (shift_invariant_bind pre (ReadFull 4)); [auto with shift| |exact Hsh].
    intros sig. destruct (negb _); auto with shift. }
  destruct Hv as [Hres Hsh]. unfold FindAllFBPTRecords.
  destruct (verifyFBPTSignature (Z.of_nat (length pre) + FBPTAddr) (mkFile (pre ++ c) o))
    as [f1 [tl|e]] eqn:E1,
    (verifyFBPTSignature FBPTAddr (mkFile c o')) as [f1' [tl'|e']] eqn:E1';
    cbn [fst snd] in Hres, Hsh; try discriminate.
  2:{ by injection Hres as <-. }
  injection Hres as <-.
  assert (Hsize : file_size f1 + 255 <= maxInt64).
  { unfold file_size. by rewrite (verifyFBPTSignature_contents _ _ _ _ E1). }
  pose proof (scan_loop_shifted pre fuel tl (initial_state f1) (initial_state f1')
                ltac:(done) Hsize) as Hloop.
  destruct (scan_loop fuel tl (initial_state f1)) as [[s|s e]|],
    (scan_loop fuel tl (initial_state f1')) as [[s'|s' e']|]; try done.
  - destruct Hloop as [-> ->]. reflexivity.
  - destruct Hloop as [-> ->]. reflexivity.
Qed.

Lemma scan_is_position_independent_witness :
  FindAllFBPTRecords 3
    (Ok (mkFile (list_byte_of_string "ACPI" ++ encode_table small_table) 0))
    (Z.of_nat (length (list_byte_of_string "ACPI")) + 0)
  = FindAllFBPTRecords 3 (Ok (mkFile (encode_table small_table) 17)) 0.
Proof.
  apply (scan_is_position_independent 3 (list_byte_of_string "ACPI")
           (encode_table small_table) 0 17 0).
  - vm_compute. discriminate.
  - vm_compute. discriminate.
  - vm_compute. discriminate.
Defined.

(** X10: for every byte source, when the loop ends normally the bytes
    consumed are below (tableLength - 8) + 255, taken as a [uint32]: the
    last record may reach past the declared end of the table, by 254 bytes
    at most, since no declared length is compared with what is left of the
    table. *)
Theorem bytes_consumed_overshoot_bounded {S : Type} `{ReadSeeker S} (fuel : nat)
    (f f1 : S) (FBPTAddr tablelength : Z) (st : @LoopState S) :
  verifyFBPTSignature FBPTAddr f = (f1, Ok tablelength) ->
  scan_loop fuel tablelength (initial_state f1) = Some (Finished st) ->
  0 <= ls_tableBytesRead st
       < wrap 32 (tablelength - EFI_ACPI_5_0_FBPT_HEADER_SIZE) + 255.
Proof.
  intros _ Hs. apply (scan_loop_tableBytesRead fuel tablelength (initial_state f1)); [|exact Hs].
  cbn [initial_state ls_tableBytesRead].
  pose proof (wrap_range 32 (tablelength - EFI_ACPI_5_0_FBPT_HEADER_SIZE) ltac:(lia)). lia.
Qed.

Lemma bytes_consumed_overshoot_bounded_witness :
  0 <= ls_tableBytesRead
         (mkLoop (mkFile short_dynamic_device 268)
            (<[0%nat := mkRecord "" 1094795585 4702111234474983745 (replicate 16 x41)
                          (string_of_list_byte (replicate 226 x41))]>
               (replicate 2000 zero_MEASUREMENT_RECORD)) 1 4)
       < wrap 32 (12 - EFI_ACPI_5_0_FBPT_HEADER_SIZE) + 255.
Proof.
  apply (bytes_consumed_overshoot_bounded 1 (mkFile short_dynamic_device 0)
           (mkFile short_dynamic_device 8) 0 12).
  - vm_compute. reflexivity.
  - vm_compute. reflexivity.
Defined.

(** A table that declares 12 bytes whose only record declares 255: the
    loop ends with 255 bytes consumed, 251 more than the table has. *)
Example overshoot_device_scan :
  scan_loop 1 12
    (initial_state
       (mkFile (list_byte_of_string FBPTStructureSig ++ le_bytes 4 12 ++ [x00; x10; xff; x01]) 8))
  = Some (Finished
            (mkLoop
               (mkFile (list_byte_of_string FBPTStructureSig ++ le_bytes 4 12
                          ++ [x00; x10; xff; x01]) 263)
               (replicate 2000 zero_MEASUREMENT_RECORD) 0 255)).
Proof. vm_compute. reflexivity. Qed.

(** X11: for every byte source, an error that the scan returns is the
    error of the open, an error that a read or a seek of the byte source
    returned, handed on unchanged, or the error of the signature check. *)
Theorem scan_errors_are_handed_on {S : Type} `{ReadSeeker S} (fuel : nat)
    (opened : result S) (FBPTAddr : Z) (count : nat) (recs : list MEASUREMENT_RECORD)
    (err : error) :
  FindAllFBPTRecords fuel opened FBPTAddr = Some (count, recs, Some err) ->
  opened = Err err
  \/ source_error err
  \/ exists fbptSig,
       string_of_list_byte fbptSig <> FBPTStructureSig
       /\ err = errors_New
                  (String.append "FBPT structure signature check failed. Expected: FBPT, Got: "
                     (string_of_list_byte fbptSig)).
Proof.
  unfold FindAllFBPTRecords. destruct opened as [f|e]; [|intros [= _ _ <-]; by left].
  intros Hres. right.
  destruct (verifyFBPTSignature FBPTAddr f) as [f1 [tablelength|e]] eqn:Hv.
  - destruct (scan_loop fuel tablelength (initial_state f1)) as [[st|st e]|] eqn:Hs;
      [discriminate| |discriminate].
    injection Hres as _ _ <-. left. exact (scan_loop_error _ _ _ _ _ Hs).
  - injection Hres as _ _ <-. unfold verifyFBPTSignature, bind at 1 in Hv.
    destruct (Seek (int64_of_uint64 FBPTAddr) SeekStart f) as [fa [x|e0]] eqn:Ea.
    2:{ injection Hv as _ <-. left. exact (fails_with_Seek _ _ _ _ _ Ea). }
    unfold bind at 1 in Hv.
    destruct (ReadFull 4 fa) as [fb [sig|e0]] eqn:Eb.
    2:{ injection Hv as _ <-. left. exact (fails_with_ReadFull _ _ _ _ Eb). }
    destruct (String.eqb_spec (string_of_list_byte sig) FBPTStructureSig) as [Heq|Hne];
      cbn [negb] in Hv.
    + unfold bind in Hv. destruct (ReadFull 4 fb) as [fc [lenb|e0]] eqn:Ec; [discriminate|].
      injection Hv as _ <-. left. exact (fails_with_ReadFull _ _ _ _ Ec).
    + injection Hv as _ <-. right. exists sig. done.
Qed.

Lemma scan_errors_are_handed_on_witness :
  Ok (mkFile truncated_device 0) = Err ErrUnexpectedEOF
  \/ source_error (S := File) ErrUnexpectedEOF
  \/ exists fbptSig,
       string_of_list_byte fbptSig <> FBPTStructureSig
       /\ ErrUnexpectedEOF
          = errors_New
              (String.append "FBPT structure signature check failed. Expected: FBPT, Got: "
                 (string_of_list_byte fbptSig)).
Proof.
  apply (scan_errors_are_handed_on 3 (Ok (mkFile truncated_device 0)) 0 1 []).
  vm_compute. reflexivity.
Defined.
